(** * A shallow embedding of the report backend ([main.py])

    The program is a FastAPI application with three kinds of routes: two
    static greetings, a database diagnostic ([test_database]) and the mock
    report generator ([run_job]) with its request model [RunRequest].

    The development has two parts.  Part I gives the definitions: first the
    pieces of the Python run time the program calls (strings, [int],
    [datetime.strptime]/[strftime], binary64 floats with [round], the
    Mersenne Twister behind [random]), then the program itself, function by
    function.  Part II states and proves the properties.

    Conventions.
    - A Python [str] is a list of 8-bit characters ([str]).  The embedding is
      exact on ASCII text, which is what the interface documents (dates such
      as 31AUG2019, decimal line numbers, ISO country codes); characters
      above 127 are left alone by [upper], [lower] and [strip].
    - A Python [int] is a [Z]; a Python [float] is a primitive binary64
      [float].
    - Code that can raise returns an [outcome]; code that also touches the
      generator of the [random] module, or mutates a dictionary, threads that
      state explicitly. *)

From Stdlib Require Import ZArith NArith List String Ascii Bool Lia.
From Stdlib Require Import Floats.PrimFloat Floats.SpecFloat Floats.FloatOps.
Import ListNotations.

Set Warnings "-inexact-float".

(* ================================================================== *)
(** * Part I: definitions *)
(* ================================================================== *)

(** ** Python strings *)

Module PyStr.

Definition str : Type := list ascii.

(** A string literal of the source. *)
Definition lit (s : string) : str := list_ascii_of_string s.

Definition ord (c : ascii) : N := N_of_ascii c.

Definition in_range (lo hi n : N) : bool := ((lo <=? n) && (n <=? hi))%N.

(** [str.isspace] on one ASCII character: TAB..CR, FS..US and the space. *)
Definition isspace (c : ascii) : bool :=
  in_range 9 13 (ord c) || in_range 28 32 (ord c).

(** The C [isspace] that [int] uses to skip blanks: TAB..CR and the space. *)
Definition c_isspace (c : ascii) : bool :=
  in_range 9 13 (ord c) || (ord c =? 32)%N.

Definition isdigit (c : ascii) : bool := in_range 48 57 (ord c).

Definition digit_value (c : ascii) : option Z :=
  if isdigit c then Some (Z.of_N (ord c) - 48)%Z else None.

Definition upper_char (c : ascii) : ascii :=
  if in_range 97 122 (ord c) then ascii_of_N (ord c - 32) else c.

Definition lower_char (c : ascii) : ascii :=
  if in_range 65 90 (ord c) then ascii_of_N (ord c + 32) else c.

(** [s.upper()] and [s.lower()]. *)
Definition upper (s : str) : str := map upper_char s.
Definition lower (s : str) : str := map lower_char s.

Fixpoint str_eqb (a b : str) : bool :=
  match a, b with
  | [], [] => true
  | x :: a', y :: b' => Ascii.eqb x y && str_eqb a' b'
  | _, _ => false
  end.

(** Truth value of a string: the empty string is false. *)
Definition truthy (s : str) : bool :=
  match s with [] => false | _ :: _ => true end.

Fixpoint lstrip (s : str) : str :=
  match s with
  | [] => []
  | c :: r => if isspace c then lstrip r else s
  end.

Definition rstrip (s : str) : str := rev (lstrip (rev s)).

(** [s.strip()]. *)
Definition strip (s : str) : str := rstrip (lstrip s).

(** [s.split(sep)] for a one-character separator: never the empty list. *)
Fixpoint split (sep : ascii) (s : str) : list str :=
  match s with
  | [] => [[]]
  | c :: r =>
      if Ascii.eqb c sep then [] :: split sep r
      else match split sep r with
           | t :: ts => (c :: t) :: ts
           | [] => [[c]]
           end
  end.

(** [sep.join(parts)]. *)
Fixpoint join (sep : str) (parts : list str) : str :=
  match parts with
  | [] => []
  | [p] => p
  | p :: ps => p ++ sep ++ join sep ps
  end.

(** [s[:n]], on a string or a list. *)
Definition slice_to {A} (n : nat) (s : list A) : list A := firstn n s.

Definition backslash : ascii := ascii_of_N 92.
Definition squote : ascii := ascii_of_N 39.
Definition dquote : ascii := ascii_of_N 34.

Definition hex_digit (n : N) : ascii :=
  if (n <? 10)%N then ascii_of_N (48 + n) else ascii_of_N (87 + n).

(** One character of [repr(s)], inside quotes [q]. *)
Definition repr_char (q : ascii) (c : ascii) : str :=
  let n := ord c in
  if Ascii.eqb c q || Ascii.eqb c backslash then [backslash; c]
  else if (n =? 9)%N then [backslash; "t"%char]
  else if (n =? 10)%N then [backslash; "n"%char]
  else if (n =? 13)%N then [backslash; "r"%char]
  else if in_range 32 126 n then [c]
  else [backslash; "x"%char; hex_digit (n / 16); hex_digit (n mod 16)].

Definition contains (c : ascii) (s : str) : bool := existsb (Ascii.eqb c) s.

(** [repr(s)] of an ASCII string: single quotes, unless the string has a
    single quote and no double quote. *)
Definition repr (s : str) : str :=
  let q := if contains squote s && negb (contains dquote s)
           then dquote else squote in
  q :: flat_map (repr_char q) s ++ [q].

End PyStr.
Export PyStr.

(** ** Exceptions and results *)

(** The exceptions the program can see.  All are subclasses of Python's
    [Exception]; each carries its text, [str(e)].  [ImportError] is what a
    failed [import] raises; [OtherError] stands for any further subclass of
    [Exception] (what a database driver may raise); [HTTPException] is
    FastAPI's. *)
Inductive exn : Type :=
| ValueError (msg : str)
| OverflowError (msg : str)
| ImportError (msg : str)
| OtherError (msg : str)
| HTTPException (status_code : Z) (detail : str).

(** [str(e)]. *)
Definition str_of_exn (e : exn) : str :=
  match e with
  | ValueError m | OverflowError m | ImportError m | OtherError m => m
  | HTTPException c d => d
  end.

(** [isinstance(e, ImportError)]. *)
Definition is_ImportError (e : exn) : bool :=
  match e with ImportError _ => true | _ => false end.

(** The result of running a piece of code: a value, or a raised exception. *)
Inductive outcome (A : Type) : Type :=
| Ret (a : A)
| Raise (e : exn).
Arguments Ret {A} a.
Arguments Raise {A} e.

Definition obind {A B} (m : outcome A) (k : A -> outcome B) : outcome B :=
  match m with
  | Ret a => k a
  | Raise e => Raise e
  end.

(** [try: m  except Exception as e: h e]. *)
Definition try_except {A} (m : outcome A) (h : exn -> outcome A) : outcome A :=
  match m with
  | Ret a => Ret a
  | Raise e => h e
  end.

(** A list comprehension whose element expression can raise. *)
Fixpoint omap {A B} (f : A -> outcome B) (l : list A) : outcome (list B) :=
  match l with
  | [] => Ret []
  | x :: r => obind (f x) (fun y => obind (omap f r) (fun ys => Ret (y :: ys)))
  end.

Definition is_ret {A} (m : outcome A) : bool :=
  match m with Ret _ => true | Raise _ => false end.

Declare Scope outcome_scope.
Delimit Scope outcome_scope with out.
Notation "x <- m ;; k" := (obind m (fun x => k))
  (at level 61, m at next level, right associativity) : outcome_scope.
Notation "m ;; k" := (obind m (fun _ => k))
  (at level 61, right associativity) : outcome_scope.

(** ** [int(s)] on a string *)

Module PyInt.

Fixpoint skip_c_spaces (s : str) : str :=
  match s with
  | c :: r => if c_isspace c then skip_c_spaces r else s
  | [] => []
  end.

(** The digits of a literal, with single underscores allowed between digits.
    [prev_us] tells that the previous character was an underscore.  Returns
    the value read and the unread rest, or [None] on a doubled or trailing
    underscore. *)
Fixpoint scan_digits (prev_us : bool) (acc : Z) (s : str) : option (Z * str) :=
  match s with
  | [] => if prev_us then None else Some (acc, [])
  | c :: r =>
      match digit_value c with
      | Some d => scan_digits false (10 * acc + d) r
      | None =>
          if Ascii.eqb c "_"%char then
            if prev_us then None else scan_digits true acc r
          else if prev_us then None else Some (acc, s)
      end
  end.

(** The value of a base-10 literal: blanks, an optional sign, digits, blanks. *)
Definition parse (s : str) : option Z :=
  let s1 := skip_c_spaces s in
  let '(sign, s2) :=
    match s1 with
    | c :: r => if Ascii.eqb c "+"%char then (1%Z, r)
                else if Ascii.eqb c "-"%char then ((-1)%Z, r)
                else (1%Z, s1)
    | [] => (1%Z, s1)
    end in
  match s2 with
  | c :: _ =>
      if isdigit c then
        match scan_digits false 0 s2 with
        | Some (n, rest) =>
            match skip_c_spaces rest with
            | [] => Some (sign * n)%Z
            | _ :: _ => None
            end
        | None => None
        end
      else None
  | [] => None
  end.

End PyInt.

(** [int(s)]: the value, or the ValueError of an invalid literal. *)
Definition int (s : str) : outcome Z :=
  match PyInt.parse s with
  | Some n => Ret n
  | None =>
      Raise (ValueError (lit "invalid literal for int() with base 10: " ++ repr s))
  end.

(** ** Python floats: binary64 *)

Module PyFloat.

(** An integer as an (unrounded) binary number. *)
Definition Z2SF (n : Z) : spec_float :=
  match n with
  | Z0 => S754_zero false
  | Zpos p => S754_finite false p 0
  | Zneg p => S754_finite true p 0
  end.

(** The binary64 number nearest to [a / b] (ties to even), as IEEE division
    computes it from exact operands.  [b] is not zero. *)
Definition nearest_quotient (a b : Z) : spec_float :=
  SFdiv prec emax (Z2SF a) (Z2SF b).

(** [a / b] on two [int]s: the correctly rounded quotient. *)
Definition truediv (a b : Z) : outcome float :=
  if (b =? 0)%Z then Raise (OtherError (lit "division by zero"))
  else
    match nearest_quotient a b with
    | S754_infinity _ =>
        Raise (OverflowError (lit "integer division result too large for a float"))
    | q => Ret (SF2Prim q)
    end.

(** The integer nearest to [n / d], ties to the even one ([d] positive). *)
Definition round_half_even (n d : Z) : Z :=
  let q := (n / d)%Z in
  match (2 * (n mod d) ?= d)%Z with
  | Lt => q
  | Gt => (q + 1)%Z
  | Eq => if Z.even q then q else (q + 1)%Z
  end.

(** [round(x, ndigits)] for a float and [ndigits >= 0]: the exact value of
    [x] is rounded to [ndigits] decimals, ties to even, and the decimal
    result is converted back to the nearest float.  Infinities and NaN round
    to themselves; the sign of a zero result is the sign of [x]. *)
Definition round (x : float) (ndigits : nat) : float :=
  match Prim2SF x with
  | S754_finite s m e =>
      let scale := (10 ^ Z.of_nat ndigits)%Z in
      let n := if (0 <=? e)%Z
               then (scale * Zpos m * 2 ^ e)%Z
               else round_half_even (scale * Zpos m) (2 ^ (- e)) in
      let q := match n with
               | Z0 => S754_zero s
               | _ => SFdiv prec emax (Z2SF (if s then (- n)%Z else n)) (Z2SF scale)
               end in
      SF2Prim q
  | _ => x
  end.

(** Truth value of a float: false for the two zeros only. *)
Definition truthy (x : float) : bool := negb (PrimFloat.eqb x 0%float).

End PyFloat.

(** ** The [random] module: Mersenne Twister MT19937 *)

Module MT.

Definition N : nat := 624.
Definition M : nat := 397.
Definition MATRIX_A : Z := 0x9908b0df.
Definition UPPER_MASK : Z := 0x80000000.
Definition LOWER_MASK : Z := 0x7fffffff.

(** The generator: the 624 words of state and the position in them. *)
Record state : Type := { mt : list Z; index : nat }.

Definition u32 (x : Z) : Z := Z.land x 0xffffffff.

Definition get (a : list Z) (i : nat) : Z := nth i a 0%Z.

Fixpoint set (a : list Z) (i : nat) (v : Z) : list Z :=
  match a, i with
  | [], _ => []
  | _ :: r, O => v :: r
  | x :: r, S i' => x :: set r i' v
  end.

Definition mix (x : Z) : Z := Z.lxor x (Z.shiftr x 30).

(** [init_genrand]: [mt[i] = 1812433253 * (mt[i-1] ^ (mt[i-1] >> 30)) + i]. *)
Fixpoint init_genrand_from (n : nat) (i : Z) (prev : Z) : list Z :=
  match n with
  | O => []
  | S n' =>
      let x := u32 (1812433253 * mix prev + i) in
      x :: init_genrand_from n' (i + 1)%Z x
  end.

Definition init_genrand (s : Z) : list Z :=
  u32 s :: init_genrand_from (N - 1) 1 (u32 s).

(** After each step of the two loops of [init_by_array]. *)
Definition wrap (a : list Z) (i : nat) : list Z * nat :=
  if (N <=? i)%nat then (set a 0 (get a (N - 1)), 1%nat) else (a, i).

Fixpoint init_loop1 (k : nat) (key : list Z) (a : list Z) (i j : nat)
  : list Z * nat :=
  match k with
  | O => (a, i)
  | S k' =>
      let v := u32 (Z.lxor (get a i) (u32 (mix (get a (i - 1)) * 1664525))
                    + get key j + Z.of_nat j) in
      let '(a', i') := wrap (set a i v) (S i) in
      let j' := if (List.length key <=? S j)%nat then O else S j in
      init_loop1 k' key a' i' j'
  end.

Fixpoint init_loop2 (k : nat) (a : list Z) (i : nat) : list Z :=
  match k with
  | O => a
  | S k' =>
      let v := u32 (Z.lxor (get a i) (u32 (mix (get a (i - 1)) * 1566083941))
                    - Z.of_nat i) in
      let '(a', i') := wrap (set a i v) (S i) in
      init_loop2 k' a' i'
  end.

Definition init_by_array (key : list Z) : list Z :=
  let '(a, i) := init_loop1 (Nat.max N (List.length key)) key
                            (init_genrand 19650218) 1 0 in
  set (init_loop2 (N - 1) a i) 0 0x80000000.

(** The 32-bit words of a non-negative integer, least significant first. *)
Fixpoint key_words (fuel : nat) (n : Z) : list Z :=
  match fuel with
  | O => []
  | S f => if (n <? 2 ^ 32)%Z then [n]
           else u32 n :: key_words f (Z.shiftr n 32)
  end.

(** [random.seed(a)] for an [int]: the state is rebuilt from [abs(a)] alone. *)
Definition seed (a : Z) : state :=
  let n := Z.abs a in
  {| mt := init_by_array (key_words (S (Z.to_nat (Z.log2 n))) n); index := N |}.

Definition twist_word (a : list Z) (kk next src : nat) : list Z :=
  let y := Z.lor (Z.land (get a kk) UPPER_MASK) (Z.land (get a next) LOWER_MASK) in
  let mag := if Z.odd y then MATRIX_A else 0%Z in
  set a kk (Z.lxor (Z.lxor (get a src) (Z.shiftr y 1)) mag).

(** The regeneration of all 624 words, word by word and in place. *)
Fixpoint twist_from (n : nat) (kk : nat) (a : list Z) : list Z :=
  match n with
  | O => a
  | S n' =>
      let a' := twist_word a kk (Nat.modulo (kk + 1) N) (Nat.modulo (kk + M) N) in
      twist_from n' (S kk) a'
  end.

Definition temper (y0 : Z) : Z :=
  let y1 := Z.lxor y0 (Z.shiftr y0 11) in
  let y2 := Z.lxor y1 (Z.land (u32 (Z.shiftl y1 7)) 0x9d2c5680) in
  let y3 := Z.lxor y2 (Z.land (u32 (Z.shiftl y2 15)) 0xefc60000) in
  Z.lxor y3 (Z.shiftr y3 18).

Definition genrand_uint32 (s : state) : Z * state :=
  let '(a, i) := if (N <=? index s)%nat then (twist_from N 0 (mt s), O)
                 else (mt s, index s) in
  (temper (get a i), {| mt := a; index := S i |}).

Definition float_of_word (n : Z) : float := of_uint63 (Uint63Axioms.of_Z n).

(** [random.random()]: 53 random bits scaled into [0, 1). *)
Definition random (s : state) : float * state :=
  let '(x, s1) := genrand_uint32 s in
  let '(y, s2) := genrand_uint32 s1 in
  let a := float_of_word (Z.shiftr x 5) in
  let b := float_of_word (Z.shiftr y 6) in
  ((a * 67108864 + b) * (1 / 9007199254740992), s2)%float.

(** [random.uniform(a, b)]: [a + (b - a) * random()]. *)
Definition uniform (a b : float) (s : state) : float * state :=
  let '(r, s') := random s in
  ((a + (b - a) * r)%float, s').

End MT.

(** ** [datetime]: parsing and formatting with the format [%d%b%Y] *)

Module Datetime.

(** A [datetime] whose time of day is midnight, as [strptime] builds it from
    a format without time fields. *)
Record datetime : Type := { year : Z; month : Z; day : Z }.

(** The abbreviated month names of the C locale. *)
Definition month_abbr : list str :=
  map lit ["Jan"; "Feb"; "Mar"; "Apr"; "May"; "Jun";
           "Jul"; "Aug"; "Sep"; "Oct"; "Nov"; "Dec"]%string.

Definition is_leap (y : Z) : bool :=
  ((y mod 4 =? 0) && (negb (y mod 100 =? 0) || (y mod 400 =? 0)))%Z.

Definition days_in_month (y m : Z) : Z :=
  if (m =? 2)%Z then (if is_leap y then 29 else 28)%Z
  else if ((m =? 4) || (m =? 6) || (m =? 9) || (m =? 11))%Z then 30%Z
  else 31%Z.

(** The digits of a non-negative integer. *)
Fixpoint digits_acc (fuel : nat) (n : Z) (acc : str) : str :=
  match fuel with
  | O => acc
  | S f =>
      let acc' := ascii_of_N (48 + Z.to_N (n mod 10)) :: acc in
      if (n <? 10)%Z then acc' else digits_acc f (n / 10)%Z acc'
  end.

Definition decimal (n : Z) : str :=
  digits_acc (S (Z.to_nat (Z.log2 n))) n [].

(** [date(year, month, day)] for a month in 1..12: the range checks of the
    constructor, the year first. *)
Definition make_date (y m d : Z) : outcome datetime :=
  if negb ((1 <=? y) && (y <=? 9999))%Z then
    Raise (ValueError (lit "year " ++ decimal y ++ lit " is out of range"))
  else if negb ((1 <=? d) && (d <=? days_in_month y m))%Z then
    Raise (ValueError (lit "day is out of range for month"))
  else Ret {| year := y; month := m; day := d |}.

(** *** The regular expression of [%d%b%Y]

    [strptime] compiles the format into
    [(?P<d>3[0-1]|[1-2]\d|0[1-9]|[1-9]| [1-9])(?P<b>jan|feb|...|dec)(?P<Y>\d\d\d\d)],
    matched at the start of the data, ignoring case.  A group matcher returns
    the text it consumed and the rest. *)

Definition matcher : Type := str -> option (str * str).

Definition is_char (c : ascii) : ascii -> bool := Ascii.eqb c.
Definition digit_between (lo hi : N) (c : ascii) : bool :=
  in_range (48 + lo) (48 + hi) (ord c).

Definition two_chars (p1 p2 : ascii -> bool) : matcher := fun s =>
  match s with
  | a :: b :: r => if p1 a && p2 b then Some ([a; b], r) else None
  | _ => None
  end.

Definition one_char (p : ascii -> bool) : matcher := fun s =>
  match s with
  | a :: r => if p a then Some ([a], r) else None
  | _ => None
  end.

(** The alternatives of the day group, in the order the regex tries them. *)
Definition d_alternatives : list matcher :=
  [ two_chars (is_char "3"%char) (digit_between 0 1);
    two_chars (digit_between 1 2) isdigit;
    two_chars (is_char "0"%char) (digit_between 1 9);
    one_char (digit_between 1 9);
    two_chars (is_char " "%char) (digit_between 1 9) ].

(** The index (from 1) of a lower-case month name. *)
Fixpoint month_index (names : list str) (b : str) (i : Z) : option Z :=
  match names with
  | [] => None
  | n :: r => if str_eqb (lower n) b then Some i else month_index r b (i + 1)%Z
  end.

Definition month_of (b : str) : option Z := month_index month_abbr (lower b) 1.

Definition b_group : matcher := fun s =>
  match s with
  | a :: b :: c :: r =>
      match month_of [a; b; c] with
      | Some _ => Some ([a; b; c], r)
      | None => None
      end
  | _ => None
  end.

Definition Y_group : matcher := fun s =>
  match s with
  | a :: b :: c :: d :: r =>
      if isdigit a && isdigit b && isdigit c && isdigit d
      then Some ([a; b; c; d], r) else None
  | _ => None
  end.

(** What a successful match found: the three groups and the unmatched rest. *)
Record found : Type := { grp_d : str; grp_b : str; grp_Y : str; rest : str }.

Definition after_d (d : str) (s : str) : option found :=
  match b_group s with
  | Some (b, s1) =>
      match Y_group s1 with
      | Some (y, s2) => Some {| grp_d := d; grp_b := b; grp_Y := y; rest := s2 |}
      | None => None
      end
  | None => None
  end.

(** Backtracking over the alternatives of the day: the first one after which
    the month and the year match. *)
Fixpoint regex_match (alts : list matcher) (s : str) : option found :=
  match alts with
  | [] => None
  | alt :: more =>
      match alt s with
      | Some (d, s1) =>
          match after_d d s1 with
          | Some f => Some f
          | None => regex_match more s
          end
      | None => regex_match more s
      end
  end.

Definition format : str := lit "%d%b%Y".

(** [datetime.strptime(data, "%d%b%Y")]. *)
Definition strptime (data : str) : outcome datetime :=
  match regex_match d_alternatives data with
  | None =>
      Raise (ValueError (lit "time data " ++ repr data ++
                         lit " does not match format " ++ repr format))
  | Some f =>
      if truthy (rest f) then
        Raise (ValueError (lit "unconverted data remains: " ++ rest f))
      else
        (d <- int (grp_d f) ;;
         y <- int (grp_Y f) ;;
         match month_of (grp_b f) with
         | Some m => make_date y m d
         | None => Raise (ValueError (repr (lower (grp_b f)) ++ lit " is not in list"))
         end)%out
  end.

Definition zero_pad2 (s : str) : str :=
  match s with
  | [c] => ["0"%char; c]
  | _ => s
  end.

(** [dt.strftime("%d%b%Y")]: the day on two digits, the month name, and the
    year as the C library prints it (glibc: without padding). *)
Definition strftime (dt : datetime) : str :=
  zero_pad2 (decimal (day dt))
  ++ nth (Z.to_nat (month dt - 1)) month_abbr []
  ++ decimal (year dt).

End Datetime.

(** ** Code with state

    [M S A] is a computation that reads and updates a state of type [S] and
    returns an [A] or raises.  A raised exception keeps the state reached
    so far: Python undoes nothing when it unwinds. *)

Definition M (S A : Type) : Type := S -> outcome A * S.

Definition ret {S A} (a : A) : M S A := fun s => (Ret a, s).
Definition raise {S A} (e : exn) : M S A := fun s => (Raise e, s).
Definition lift {S A} (m : outcome A) : M S A := fun s => (m, s).

Definition bind {S A B} (m : M S A) (k : A -> M S B) : M S B := fun s =>
  match m s with
  | (Ret a, s') => k a s'
  | (Raise e, s') => (Raise e, s')
  end.

(** [try: m  except Exception as e: h e], with state. *)
Definition try_catch {S A} (m : M S A) (h : exn -> M S A) : M S A := fun s =>
  match m s with
  | (Ret a, s') => (Ret a, s')
  | (Raise e, s') => h e s'
  end.

Definition modify {S} (f : S -> S) : M S unit := fun s => (Ret tt, f s).
Definition get_state {S} : M S S := fun s => (Ret s, s).

(** A [for] loop that appends one result per element. *)
Fixpoint for_each {S A B} (l : list A) (body : A -> M S B) : M S (list B) :=
  match l with
  | [] => ret []
  | x :: r => bind (body x) (fun y => bind (for_each r body) (fun ys => ret (y :: ys)))
  end.

Declare Scope state_scope.
Delimit Scope state_scope with st.
Notation "x <- m ;; k" := (bind m (fun x => k))
  (at level 61, m at next level, right associativity) : state_scope.
Notation "m ;; k" := (bind m (fun _ => k))
  (at level 61, right associativity) : state_scope.

(* ------------------------------------------------------------------ *)
(** ** The program: [main.py] *)
(* ------------------------------------------------------------------ *)

(** *** [class RunRequest(BaseModel)] *)

Record RunRequest : Type := {
  from_date : str;
  to_date : option str;
  lines : str;
  country : str
}.

Definition from_date_message : str :=
  lit "from_date must be DDMMMYYYY, e.g., 31AUG2019".
Definition to_date_message : str :=
  lit "to_date must be DDMMMYYYY, e.g., 31JUL2019".
Definition lines_message : str :=
  lit "lines must be comma-separated integers, e.g., '6,17'".
Definition country_message : str :=
  lit "country must be ISO code like 'SG' or 'SGP'".

Definition validate_from_date (v : str) : outcome str :=
  (try_except (_ <- Datetime.strptime (upper v) ;; Ret tt)
              (fun _ => Raise (ValueError from_date_message)) ;;
   Ret (upper v))%out.

Definition validate_to_date (v : option str) : outcome (option str) :=
  match v with
  | None => Ret None
  | Some [] => Ret None
  | Some v =>
      (try_except (_ <- Datetime.strptime (upper v) ;; Ret tt)
                  (fun _ => Raise (ValueError to_date_message)) ;;
       Ret (Some (upper v)))%out
  end.

(** [[p.strip() for p in v.split(',') if p.strip()]]. *)
Definition stripped_parts (v : str) : list str :=
  map strip (filter (fun p => truthy (strip p)) (split ","%char v)).

Definition validate_lines (v : str) : outcome str :=
  (parts <- try_except
              (let parts := stripped_parts v in
               (match parts with
                | [] => Raise (ValueError [])
                | _ :: _ => Ret tt
                end) ;;
               _ <- omap int parts ;;
               Ret parts)
              (fun _ => Raise (ValueError lines_message)) ;;
   Ret (join (lit ",") parts))%out.

Definition validate_country (v : str) : outcome str :=
  let v := upper (strip v) in
  if negb (truthy v) || negb ((List.length v =? 2)%nat || (List.length v =? 3)%nat)
  then Raise (ValueError country_message)
  else Ret v.

(** One entry of the error list of a failed model validation: the field and
    the text of the [ValueError] its validator raised. *)
Record field_error : Type := { loc : str; msg : str }.

Definition field_errors {A} (name : string) (r : outcome A) : list field_error :=
  match r with
  | Ret _ => []
  | Raise e => [{| loc := lit name; msg := str_of_exn e |}]
  end.

(** Building a [RunRequest] from the fields of a body: every field goes
    through its validator, in the order of declaration; the model is built
    when all succeed, otherwise the errors of all failing fields are
    reported together. *)
Definition RunRequest_validate (body : RunRequest)
  : RunRequest + list field_error :=
  let f := validate_from_date (from_date body) in
  let t := validate_to_date (to_date body) in
  let l := validate_lines (lines body) in
  let c := validate_country (country body) in
  match f, t, l, c with
  | Ret f', Ret t', Ret l', Ret c' =>
      inl {| from_date := f'; to_date := t'; lines := l'; country := c' |}
  | _, _, _, _ =>
      inr (field_errors "from_date" f ++ field_errors "to_date" t ++
           field_errors "lines" l ++ field_errors "country" c)
  end.

(** *** [GET /] and [GET /api/hello] *)

Definition read_root : str := lit "Hello from FastAPI Backend!".
Definition hello : str := lit "Hello from the backend API!".

(** *** [GET /test]: [test_database] *)

(** The [response] dictionary. *)
Record Diagnostic : Type := {
  backend : str;
  database : str;
  database_url : option str;
  database_name : option str;
  connection_status : str;
  collections : list str
}.

Definition set_database (v : str) : M Diagnostic unit :=
  modify (fun r => {| backend := backend r; database := v;
                      database_url := database_url r;
                      database_name := database_name r;
                      connection_status := connection_status r;
                      collections := collections r |}).

Definition set_database_url (v : str) : M Diagnostic unit :=
  modify (fun r => {| backend := backend r; database := database r;
                      database_url := Some v;
                      database_name := database_name r;
                      connection_status := connection_status r;
                      collections := collections r |}).

Definition set_database_name (v : str) : M Diagnostic unit :=
  modify (fun r => {| backend := backend r; database := database r;
                      database_url := database_url r;
                      database_name := Some v;
                      connection_status := connection_status r;
                      collections := collections r |}).

Definition set_connection_status (v : str) : M Diagnostic unit :=
  modify (fun r => {| backend := backend r; database := database r;
                      database_url := database_url r;
                      database_name := database_name r;
                      connection_status := v;
                      collections := collections r |}).

Definition set_collections (v : list str) : M Diagnostic unit :=
  modify (fun r => {| backend := backend r; database := database r;
                      database_url := database_url r;
                      database_name := database_name r;
                      connection_status := connection_status r;
                      collections := v |}).

(** What the optional [database] module is at the time of the request. *)

(** Reading the attribute [name] of the database object. *)
Inductive attribute : Type :=
| NoAttribute                 (* [hasattr(db, 'name')] is false *)
| Attribute (v : str)
| AttributeRaises (e : exn).  (* the property raises something else *)

Record Database : Type := {
  name : attribute;
  list_collection_names : outcome (list str)
}.

(** The outcome of [from database import db]: an exception (an [ImportError]
    when the module or the name is missing), or the value of [db], which may
    be [None]. *)
Definition import_db : Type := outcome (option Database).

(** The environment variables the endpoint reads. *)
Record Environ : Type := {
  DATABASE_URL : option str;
  DATABASE_NAME : option str
}.

(** [os.getenv(k)] used as a condition: unset and empty are both false. *)
Definition getenv_truthy (v : option str) : bool :=
  match v with Some s => truthy s | None => false end.

Definition initial_response : Diagnostic := {|
  backend := lit "✅ Running";
  database := lit "❌ Not Available";
  database_url := None;
  database_name := None;
  connection_status := lit "Not Connected";
  collections := []
|}.

Definition read_name (db : Database) : outcome str :=
  match name db with
  | NoAttribute => Ret (lit "✅ Connected")
  | Attribute v => Ret v
  | AttributeRaises e => Raise e
  end.

Definition test_database_body (imported : import_db) (env : Environ)
  : M Diagnostic Diagnostic :=
  (try_catch
     (db <- lift imported ;;
      match db with
      | Some db =>
          set_database (lit "✅ Available") ;;
          set_database_url (lit "✅ Configured") ;;
          n <- lift (read_name db) ;;
          set_database_name n ;;
          set_connection_status (lit "Connected") ;;
          try_catch
            (cs <- lift (list_collection_names db) ;;
             set_collections (slice_to 10 cs) ;;
             set_database (lit "✅ Connected & Working"))
            (fun e =>
               set_database (lit "⚠️  Connected but Error: "
                             ++ slice_to 50 (str_of_exn e)))
      | None => set_database (lit "⚠️  Available but not initialized")
      end)
     (fun e =>
        if is_ImportError e then
          set_database
            (lit "❌ Database module not found (run enable-database first)")
        else set_database (lit "❌ Error: " ++ slice_to 50 (str_of_exn e))) ;;
   set_database_url
     (if getenv_truthy (DATABASE_URL env) then lit "✅ Set" else lit "❌ Not Set") ;;
   set_database_name
     (if getenv_truthy (DATABASE_NAME env) then lit "✅ Set" else lit "❌ Not Set") ;;
   get_state)%st.

(** The endpoint: the body run on a fresh [response]. *)
Definition test_database (imported : import_db) (env : Environ)
  : outcome Diagnostic :=
  fst (test_database_body imported env initial_response).

(** *** [POST /run]: [run_job] *)

(** A cell of a row that holds a number or the empty string. *)
Inductive cell : Type :=
| Number (x : float)
| Text (s : str).

Record OutputRow : Type := {
  COUNTRY : str;
  LINE : Z;
  REPORT_DATE : str;
  PREV_DATE : str;
  VALUE : float;
  PREV_VALUE : cell;
  DELTA : cell
}.

(** [random.seed(a)] and [random.uniform(a, b)] on the module's generator. *)
Definition random_seed (a : Z) : M MT.state unit :=
  fun _ => (Ret tt, MT.seed a).

Definition random_uniform (a b : float) : M MT.state float :=
  fun g => let '(x, g') := MT.uniform a b g in (Ret x, g').

(** [[int(x.strip()) for x in payload.lines.split(",") if x.strip()]]. *)
Definition parse_line_numbers (ls : str) : outcome (list Z) :=
  omap (fun x => int (strip x))
       (filter (fun x => truthy (strip x)) (split ","%char ls)).

(** The body of the loop: the row of one line number. *)
Definition make_row (country : str) (report_date : Datetime.datetime)
    (prev_date : option Datetime.datetime) (ln : Z) : M MT.state OutputRow :=
  (base <- random_uniform 1000 5000 ;;
   q <- lift (PyFloat.truediv ln 100) ;;
   let value_today := PyFloat.round (base * (1 + q))%float 2 in
   value_prev <- match prev_date with
                 | Some _ =>
                     f <- random_uniform 0.9 1.1 ;;
                     ret (Some (PyFloat.round (value_today * f)%float 2))
                 | None => ret None
                 end ;;
   ret {| COUNTRY := country;
          LINE := ln;
          REPORT_DATE := Datetime.strftime report_date;
          PREV_DATE := match prev_date with
                       | Some d => Datetime.strftime d
                       | None => []
                       end;
          VALUE := value_today;
          PREV_VALUE := match value_prev with
                        | Some p => Number p
                        | None => Text []
                        end;
          DELTA := match value_prev with
                   | Some p =>
                       if PyFloat.truthy p
                       then Number (PyFloat.round (value_today - p)%float 2)
                       else Text []
                   | None => Text []
                   end |})%st.

(** The handler.  It receives an already validated [payload]; whatever its
    body raises is turned into an [HTTPException] with status 400. *)
Definition run_job (payload : RunRequest) : M MT.state (list OutputRow) :=
  try_catch
    (report_date <- lift (Datetime.strptime (from_date payload)) ;;
     prev_date <- lift (match to_date payload with
                        | Some t =>
                            if truthy t
                            then (d <- Datetime.strptime t ;; Ret (Some d))%out
                            else Ret None
                        | None => Ret None
                        end) ;;
     line_numbers <- lift (parse_line_numbers (lines payload)) ;;
     let country := country payload in
     random_seed 42 ;;
     for_each line_numbers (make_row country report_date prev_date))%st
    (fun e => raise (HTTPException 400 (str_of_exn e))).

(** *** The route [POST /run] as the framework serves it

    FastAPI builds the [payload] argument from the request body before it
    calls the handler: when a validator of [RunRequest] rejects a field the
    handler is not called at all, and the framework answers with its own
    request-validation error, status 422, listing the failing fields.  An
    [HTTPException] raised by the handler becomes a response with its status
    and detail; any other exception is an internal server error.  What the
    handler returns is rendered as JSON with [allow_nan=False]: an infinity
    or a NaN among the numbers cannot be rendered and ends in an internal
    server error as well. *)

Inductive response : Type :=
| Rows (rows : list OutputRow)                 (* 200, [{"rows": rows}] *)
| ValidationErrors (status : Z) (errors : list field_error)
| ErrorDetail (status : Z) (detail : str).

Definition internal_server_error : response :=
  ErrorDetail 500 (lit "Internal Server Error").

Definition finite (x : float) : bool := negb (is_nan x || is_infinity x).

Definition cell_finite (c : cell) : bool :=
  match c with
  | Number x => finite x
  | Text _ => true
  end.

(** The numbers of the row can be written in JSON. *)
Definition renderable (r : OutputRow) : bool :=
  finite (VALUE r) && cell_finite (PREV_VALUE r) && cell_finite (DELTA r).

(** The response for the rows that the handler returned. *)
Definition render (rows : list OutputRow) : response :=
  if forallb renderable rows then Rows rows else internal_server_error.

Definition post_run (body : RunRequest) (g : MT.state) : response * MT.state :=
  match RunRequest_validate body with
  | inr errors => (ValidationErrors 422 errors, g)
  | inl payload =>
      match run_job payload g with
      | (Ret rows, g') => (render rows, g')
      | (Raise (HTTPException status detail), g') => (ErrorDetail status detail, g')
      | (Raise _, g') => (internal_server_error, g')
      end
  end.

Definition status_of (r : response) : Z :=
  match r with
  | Rows _ => 200%Z
  | ValidationErrors s _ => s
  | ErrorDetail s _ => s
  end.

(** *** The entry point: [if __name__ == "__main__"]

    [port = int(os.getenv("PORT", 8000))]: the text of the variable when it
    is set, else the integer 8000, through [int]. *)
Definition server_port (PORT : option str) : outcome Z :=
  match PORT with
  | Some s => int s
  | None => Ret 8000%Z
  end.

(** ** Vocabulary of the properties *)

(** A token of a [lines] string is blank when nothing is left of it after
    stripping, and numeric when [int] accepts it. *)
Definition blank (t : str) : Prop := strip t = [].
Definition numeric (t : str) : Prop := PyInt.parse (strip t) <> None.

(** The line number can be divided by 100 without [OverflowError]. *)
Definition divisible (ln : Z) : Prop := is_ret (PyFloat.truediv ln 100) = true.

(** The generator after [k] calls of [random()]. *)
Fixpoint after_draws (k : nat) (g : MT.state) : MT.state :=
  match k with
  | O => g
  | S k' => snd (MT.random (after_draws k' g))
  end.

(** The [k]-th number (from 0) that [random()] returns after
    [random.seed(42)]. *)
Definition draw (k : nat) : float :=
  fst (MT.random (after_draws k (MT.seed 42))).

(** [random.uniform(a, b)] when [random()] returns [r]. *)
Definition scaled (a b r : float) : float := (a + (b - a) * r)%float.

(** [1 + ln / 100], for a divisible line number. *)
Definition growth (ln : Z) : float :=
  match PyFloat.truediv ln 100 with
  | Ret q => (1 + q)%float
  | Raise _ => nan
  end.

(** The row of line [ln] when its first draw is number [k]: the value
    formula of the report, written over the numbered draws. *)
Definition row_at (country : str) (report : Datetime.datetime)
    (prev : option Datetime.datetime) (k : nat) (ln : Z) : OutputRow :=
  let value := PyFloat.round (scaled 1000 5000 (draw k) * growth ln)%float 2 in
  {| COUNTRY := country;
     LINE := ln;
     REPORT_DATE := Datetime.strftime report;
     PREV_DATE := match prev with
                  | Some d => Datetime.strftime d
                  | None => []
                  end;
     VALUE := value;
     PREV_VALUE :=
       match prev with
       | Some _ =>
           Number (PyFloat.round (value * scaled 0.9 1.1 (draw (S k)))%float 2)
       | None => Text []
       end;
     DELTA :=
       match prev with
       | Some _ =>
           let p := PyFloat.round (value * scaled 0.9 1.1 (draw (S k)))%float 2 in
           if PyFloat.truthy p
           then Number (PyFloat.round (value - p)%float 2)
           else Text []
       | None => Text []
       end |}.

(** Draws used per row: two when there is a previous date, else one. *)
Definition stride (prev : option Datetime.datetime) : nat :=
  match prev with Some _ => 2%nat | None => 1%nat end.

Fixpoint rows_from (country : str) (report : Datetime.datetime)
    (prev : option Datetime.datetime) (k : nat) (lns : list Z)
  : list OutputRow :=
  match lns with
  | [] => []
  | ln :: r =>
      row_at country report prev k ln
      :: rows_from country report prev (k + stride prev) r
  end.

(** The tokens that [validate_lines] keeps: the non-blank ones, stripped. *)
Definition kept (tokens : list str) : list str :=
  map strip (filter (fun p => truthy (strip p)) tokens).

(** The value of a numeric token. *)
Definition token_value (p : str) : Z :=
  match PyInt.parse p with Some n => n | None => 0%Z end.

(** The generator state a request may find: here, the one an earlier
    [random.seed(0)] leaves. *)
Definition some_generator : MT.state := MT.seed 0.

Definition with_to_date (t : option str) (b : RunRequest) : RunRequest :=
  {| from_date := from_date b; to_date := t;
     lines := lines b; country := country b |}.

Definition empty_previous (r : OutputRow) : Prop :=
  PREV_DATE r = [] /\ PREV_VALUE r = Text [] /\ DELTA r = Text [].

(** A date written as two digits, three letters and four digits, the year
    not starting with 0. *)
Definition canonical_date (u : str) : Prop :=
  match u with
  | [d1; d2; _; _; _; y1; _; _; _] =>
      isdigit d1 = true /\ isdigit d2 = true /\ y1 <> "0"%char
  | _ => False
  end.

(** The texts of the four validators. *)
Definition validator_messages : list str :=
  [from_date_message; to_date_message; lines_message; country_message].

(** Example requests. *)

Definition example_request : RunRequest :=
  {| from_date := lit "31AUG2019"; to_date := None;
     lines := lit "6,17"; country := lit "SG" |}.

Definition example_request_with_previous : RunRequest :=
  {| from_date := lit "31AUG2019"; to_date := Some (lit "31JUL2019");
     lines := lit "6,17"; country := lit "SG" |}.

(** Line number -100, for which the value of the row is zero. *)
Definition zero_value_request : RunRequest :=
  {| from_date := lit "31AUG2019"; to_date := Some (lit "31JUL2019");
     lines := lit "-100"; country := lit "SG" |}.

(** A single line number of 401 digits, 1 followed by 400 zeros. *)
Definition huge_line_request : RunRequest :=
  {| from_date := lit "31AUG2019"; to_date := None;
     lines := "1"%char :: repeat "0"%char 400; country := lit "SG" |}.

(** A single line number of 310 digits, 1 followed by 309 zeros. *)
Definition infinite_value_request : RunRequest :=
  {| from_date := lit "31AUG2019"; to_date := None;
     lines := "1"%char :: repeat "0"%char 309; country := lit "SG" |}.

Definition padded_country_request : RunRequest :=
  {| from_date := lit "31AUG2019"; to_date := None;
     lines := lit "6,17"; country := lit " SG " |}.

Definition mixed_lines_request : RunRequest :=
  {| from_date := lit "31AUG2019"; to_date := None;
     lines := lit "6,x"; country := lit "SG" |}.

Definition iso_date_request : RunRequest :=
  {| from_date := lit "2019-08-31"; to_date := None;
     lines := lit "6,17"; country := lit "SG" |}.

(** More vocabulary, for the properties beyond the claims. *)

(** The text of the [OverflowError] of a division. *)
Definition overflow_text : str :=
  lit "integer division result too large for a float".

(** A date of the calendar: a year from 1 to 9999, a month, and a day that
    the month has in that year. *)
Definition calendar_date (d : Datetime.datetime) : Prop :=
  (1 <= Datetime.year d <= 9999)%Z /\
  (1 <= Datetime.month d <= 12)%Z /\
  (1 <= Datetime.day d <= Datetime.days_in_month (Datetime.year d) (Datetime.month d))%Z.

(** The characters of an integer literal without blanks, and those of a
    validated [lines] value. *)
Definition literal_char (c : ascii) : bool :=
  isdigit c || Ascii.eqb c "+"%char || Ascii.eqb c "-"%char
  || Ascii.eqb c "_"%char.

Definition lines_char (c : ascii) : bool :=
  literal_char c || Ascii.eqb c ","%char.

(** Draws used per row by a payload. *)
Definition draws_per_row (payload : RunRequest) : nat :=
  match to_date payload with Some _ => 2%nat | None => 1%nat end.

(** Two digits that the day group of the format matches as a whole. *)
Definition day_digits (d1 d2 : ascii) : bool :=
  Datetime.is_char "3"%char d1 && Datetime.digit_between 0 1 d2
  || Datetime.digit_between 1 2 d1 && isdigit d2
  || Datetime.is_char "0"%char d1 && Datetime.digit_between 1 9 d2.

(** An alternative of the day group consumes one or two characters from
    the front of the text. *)
Definition day_shape (alt : Datetime.matcher) : Prop :=
  forall s d r, alt s = Some (d, r) ->
    s = d ++ r /\ (List.length d = 1%nat \/ List.length d = 2%nat).

(** The ten digits, for the checks by enumeration in the proofs about
    dates. *)
Definition digits10 : list ascii := lit "0123456789".

(* ================================================================== *)
(** * Part II: properties *)
(* ================================================================== *)

(** ** Strings *)

Section StringFacts.

Lemma lstrip_head (s : str) :
  match lstrip s with
  | [] => True
  | c :: _ => isspace c = false
  end.
Proof.
  induction s as [|c r IH]; simpl; [exact I|].
  destruct (isspace c) eqn:E; [exact IH | exact E].
Qed.

Lemma lstrip_fixed (s : str) :
  match s with [] => True | c :: _ => isspace c = false end ->
  lstrip s = s.
Proof.
  destruct s as [|c r]; simpl; [reflexivity|].
  intros ->. reflexivity.
Qed.

Lemma lstrip_idem (s : str) : lstrip (lstrip s) = lstrip s.
Proof. apply lstrip_fixed, lstrip_head. Qed.

Lemma lstrip_In (s : str) (c : ascii) : In c (lstrip s) -> In c s.
Proof.
  induction s as [|a r IH]; simpl; [tauto|].
  destruct (isspace a); simpl; tauto.
Qed.

Lemma lstrip_snoc (l : str) (c : ascii) :
  lstrip (l ++ [c]) =
  match lstrip l with
  | [] => if isspace c then [] else [c]
  | _ :: _ => lstrip l ++ [c]
  end.
Proof.
  induction l as [|a r IH]; simpl; [reflexivity|].
  destruct (isspace a); [exact IH | reflexivity].
Qed.

Lemma rstrip_cons (c : ascii) (r : str) :
  rstrip (c :: r) =
  match rstrip r with
  | [] => if isspace c then [] else [c]
  | _ :: _ => c :: rstrip r
  end.
Proof.
  unfold rstrip. simpl rev. rewrite lstrip_snoc.
  destruct (lstrip (rev r)) as [|a l] eqn:E; simpl.
  - destruct (isspace c); reflexivity.
  - rewrite rev_app_distr. simpl.
    destruct (rev l ++ [a]) eqn:E2; [destruct (rev l); discriminate | reflexivity].
Qed.

Lemma rstrip_In (s : str) (c : ascii) : In c (rstrip s) -> In c s.
Proof.
  unfold rstrip. intros H. apply in_rev in H. apply lstrip_In in H.
  now apply in_rev.
Qed.

Lemma rstrip_idem (s : str) : rstrip (rstrip s) = rstrip s.
Proof. unfold rstrip. now rewrite rev_involutive, lstrip_idem. Qed.

(** Stripping on the right keeps a first character that is not a blank. *)
Lemma rstrip_keeps_head (s : str) :
  match s with [] => True | c :: _ => isspace c = false end ->
  match rstrip s with [] => True | c :: _ => isspace c = false end.
Proof.
  destruct s as [|c r]; [intros _; exact I|].
  intros Hc. rewrite rstrip_cons, Hc.
  destruct (rstrip r); exact Hc.
Qed.

Lemma strip_idem (s : str) : strip (strip s) = strip s.
Proof.
  unfold strip.
  rewrite (lstrip_fixed (rstrip (lstrip s))).
  - apply rstrip_idem.
  - apply rstrip_keeps_head, lstrip_head.
Qed.

Lemma strip_In (s : str) (c : ascii) : In c (strip s) -> In c s.
Proof. intros H. now apply lstrip_In, rstrip_In. Qed.

Lemma truthy_nonempty (s : str) : truthy s = true <-> s <> [].
Proof. destruct s; simpl; split; intros; congruence. Qed.

Lemma split_nonempty (sep : ascii) (s : str) : split sep s <> [].
Proof.
  destruct s as [|c r]; simpl; [discriminate|].
  destruct (Ascii.eqb c sep); [discriminate|].
  destruct (split sep r); discriminate.
Qed.

(** No piece of a split contains the separator. *)
Lemma split_pieces (sep : ascii) (s : str) :
  Forall (fun t => ~ In sep t) (split sep s).
Proof.
  induction s as [|c r IH]; simpl.
  - constructor; [simpl; tauto | constructor].
  - destruct (Ascii.eqb c sep) eqn:E.
    + constructor; [simpl; tauto | exact IH].
    + apply Ascii.eqb_neq in E.
      destruct (split sep r) as [|t ts].
      * constructor; [|constructor]. simpl. intros [H|[]]. congruence.
      * inversion IH as [|? ? Ht Hts]; subst.
        constructor; [|exact Hts]. simpl. intros [H|H]; [congruence | tauto].
Qed.

Lemma split_without_sep (sep : ascii) (p : str) :
  ~ In sep p -> split sep p = [p].
Proof.
  induction p as [|c r IH]; simpl; [reflexivity|].
  intros H. destruct (Ascii.eqb c sep) eqn:E.
  - apply Ascii.eqb_eq in E. tauto.
  - rewrite IH by tauto. reflexivity.
Qed.

Lemma split_app (sep : ascii) (p r : str) :
  ~ In sep p -> split sep (p ++ sep :: r) = p :: split sep r.
Proof.
  induction p as [|c q IH]; simpl.
  - intros _. now rewrite Ascii.eqb_refl.
  - intros H. destruct (Ascii.eqb c sep) eqn:E.
    + apply Ascii.eqb_eq in E. tauto.
    + rewrite IH by tauto. reflexivity.
Qed.

(** Splitting what was joined gives the parts back. *)
Lemma split_join (sep : ascii) (parts : list str) :
  parts <> [] ->
  Forall (fun p => ~ In sep p) parts ->
  split sep (join [sep] parts) = parts.
Proof.
  induction parts as [|p ps IH]; [congruence|].
  intros _ H. inversion H as [|? ? Hp Hps]; subst.
  destruct ps as [|q qs].
  - simpl. now apply split_without_sep.
  - change (join [sep] (p :: q :: qs)) with (p ++ sep :: join [sep] (q :: qs)).
    rewrite split_app by exact Hp.
    rewrite IH; [reflexivity | discriminate | exact Hps].
Qed.

Lemma upper_length (s : str) : List.length (upper s) = List.length s.
Proof. apply length_map. Qed.

Lemma upper_nonempty (s : str) : s <> [] -> upper s <> [].
Proof. destruct s; simpl; congruence. Qed.

End StringFacts.

(** ** Results and list comprehensions *)

Section OutcomeFacts.

Lemma omap_map {A B C} (g : A -> B) (f : B -> outcome C) (l : list A) :
  omap f (map g l) = omap (fun x => f (g x)) l.
Proof.
  induction l as [|x r IH]; simpl; [reflexivity|].
  now rewrite IH.
Qed.

Lemma omap_ext_in {A B} (f g : A -> outcome B) (l : list A) :
  (forall x, In x l -> f x = g x) -> omap f l = omap g l.
Proof.
  induction l as [|x r IH]; simpl; intros H; [reflexivity|].
  rewrite (H x) by tauto. rewrite IH; [reflexivity|].
  intros y Hy. apply H. tauto.
Qed.

Lemma int_ret (p : str) (n : Z) : int p = Ret n <-> PyInt.parse p = Some n.
Proof.
  unfold int. destruct (PyInt.parse p); split; intros H;
    inversion H; reflexivity.
Qed.

(** A comprehension over [int] succeeds when every token is accepted, and
    then lists the values in the order of the tokens. *)
Lemma omap_int_ret (parts : list str) :
  Forall (fun p => PyInt.parse p <> None) parts ->
  omap int parts = Ret (map token_value parts).
Proof.
  induction 1 as [|p r Hp _ IH]; simpl; [reflexivity|].
  unfold int at 1, token_value at 1.
  destruct (PyInt.parse p); [|congruence]. simpl.
  now rewrite IH.
Qed.

Lemma omap_int_inv (parts : list str) (lns : list Z) :
  omap int parts = Ret lns ->
  Forall (fun p => PyInt.parse p <> None) parts /\ lns = map token_value parts.
Proof.
  revert lns. induction parts as [|p r IH]; simpl; intros lns H.
  - inversion H. split; constructor.
  - unfold int at 1 in H. unfold token_value at 1.
    destruct (PyInt.parse p) eqn:E; simpl in H; [|discriminate].
    destruct (omap int r) eqn:E2; simpl in H; [|discriminate].
    inversion H; subst. destruct (IH _ eq_refl) as [H1 H2].
    split; [constructor; [congruence | exact H1] | now rewrite H2].
Qed.

Lemma omap_int_raise (parts : list str) :
  Exists (fun p => PyInt.parse p = None) parts ->
  exists e, omap int parts = Raise e.
Proof.
  induction 1 as [p r Hp | p r _ IH]; simpl.
  - unfold int at 1. rewrite Hp. simpl. eexists; reflexivity.
  - destruct (int p); simpl; [|eexists; reflexivity].
    destruct IH as [e ->]. simpl. eexists; reflexivity.
Qed.

End OutcomeFacts.

(** ** The validators *)

Section Validators.

(** The parts kept by [validate_lines] are non-empty, already stripped, and
    free of commas. *)
Lemma stripped_parts_shape (v : str) :
  Forall (fun p => p <> [] /\ strip p = p /\ ~ In ","%char p) (stripped_parts v).
Proof.
  unfold stripped_parts. apply Forall_forall. intros p Hp.
  apply in_map_iff in Hp. destruct Hp as [t [<- Ht]].
  apply filter_In in Ht. destruct Ht as [Ht Hne].
  repeat split.
  - now apply truthy_nonempty.
  - apply strip_idem.
  - intros Hc. apply strip_In in Hc.
    pose proof (split_pieces ","%char v) as Hall.
    rewrite Forall_forall in Hall. exact (Hall t Ht Hc).
Qed.

(** Parts of that shape come back unchanged from a second round of
    splitting, filtering and stripping. *)
Lemma restrip_parts (parts : list str) :
  Forall (fun p => p <> [] /\ strip p = p /\ ~ In ","%char p) parts ->
  map strip (filter (fun p => truthy (strip p)) parts) = parts.
Proof.
  induction 1 as [|p r [Hne [Hs _]] _ IH]; simpl; [reflexivity|].
  rewrite Hs. destruct p as [|c q]; [congruence|]. simpl.
  rewrite Hs. now rewrite IH.
Qed.

Lemma stripped_parts_join (v : str) :
  stripped_parts v <> [] ->
  stripped_parts (join (lit ",") (stripped_parts v)) = stripped_parts v.
Proof.
  intros Hne. pose proof (stripped_parts_shape v) as Hsh.
  unfold stripped_parts at 1.
  change (lit ",") with [","%char].
  rewrite split_join.
  - now apply restrip_parts.
  - exact Hne.
  - eapply Forall_impl; [|exact Hsh]. simpl. tauto.
Qed.

Lemma parse_line_numbers_parts (l : str) :
  parse_line_numbers l = omap int (stripped_parts l).
Proof. unfold parse_line_numbers, stripped_parts. now rewrite omap_map. Qed.

(** [validate_lines] in closed form. *)
Lemma validate_lines_eq (v : str) :
  validate_lines v =
  match stripped_parts v with
  | [] => Raise (ValueError lines_message)
  | _ :: _ =>
      match omap int (stripped_parts v) with
      | Ret _ => Ret (join (lit ",") (stripped_parts v))
      | Raise _ => Raise (ValueError lines_message)
      end
  end.
Proof.
  unfold validate_lines.
  destruct (stripped_parts v) as [|p r]; simpl; [reflexivity|].
  destruct (int p); simpl; [|reflexivity].
  destruct (omap int r); reflexivity.
Qed.

Lemma validate_lines_inv (v l : str) :
  validate_lines v = Ret l ->
  stripped_parts v <> [] /\
  l = join (lit ",") (stripped_parts v) /\
  omap int (stripped_parts v) = Ret (map token_value (stripped_parts v)).
Proof.
  rewrite validate_lines_eq.
  destruct (stripped_parts v) as [|p r] eqn:E; [discriminate|].
  destruct (omap int (p :: r)) as [lns|e] eqn:E2; [|discriminate].
  intros H. inversion H; subst.
  apply omap_int_inv in E2. destruct E2 as [Hall ->].
  split; [discriminate|]. split; reflexivity.
Qed.

(** The handler reads from a validated [lines] the numbers that the
    validator accepted, in the same order. *)
Lemma validated_lines_parse (v l : str) :
  validate_lines v = Ret l ->
  parse_line_numbers l = Ret (map token_value (stripped_parts v)).
Proof.
  intros H. apply validate_lines_inv in H. destruct H as [Hne [-> Hm]].
  rewrite parse_line_numbers_parts, stripped_parts_join by exact Hne.
  exact Hm.
Qed.

Lemma validate_from_date_inv (v u : str) :
  validate_from_date v = Ret u ->
  u = upper v /\ exists d, Datetime.strptime u = Ret d.
Proof.
  unfold validate_from_date.
  destruct (Datetime.strptime (upper v)) as [d|e] eqn:E; simpl; [|discriminate].
  intros H. inversion H; subst. split; [reflexivity | now exists d].
Qed.

Lemma validate_to_date_inv (v t : option str) :
  validate_to_date v = Ret t ->
  (t = None /\ (v = None \/ v = Some [])) \/
  (exists w d, v = Some w /\ w <> [] /\ t = Some (upper w) /\
               Datetime.strptime (upper w) = Ret d).
Proof.
  destruct v as [[|c w]|]; simpl.
  - intros H. inversion H. left. split; [reflexivity | now right].
  - destruct (Datetime.strptime (upper_char c :: upper w)) as [d|e] eqn:E;
      simpl; [|discriminate].
    intros H. inversion H; subst. right. exists (c :: w), d.
    repeat split; [discriminate | exact E].
  - intros H. inversion H. left. split; [reflexivity | now left].
Qed.

Lemma validate_country_eq (v : str) :
  validate_country v =
  if ((List.length (upper (strip v)) =? 2) || (List.length (upper (strip v)) =? 3))%nat
  then Ret (upper (strip v))
  else Raise (ValueError country_message).
Proof.
  unfold validate_country.
  destruct (upper (strip v)) as [|a [|b [|c [|d r]]]]; reflexivity.
Qed.

(** What a successful model validation says about each field. *)
Lemma RunRequest_validate_inv (body payload : RunRequest) :
  RunRequest_validate body = inl payload ->
  validate_from_date (from_date body) = Ret (from_date payload) /\
  validate_to_date (to_date body) = Ret (to_date payload) /\
  validate_lines (lines body) = Ret (lines payload) /\
  validate_country (country body) = Ret (country payload).
Proof.
  unfold RunRequest_validate.
  destruct (validate_from_date (from_date body));
    destruct (validate_to_date (to_date body));
    destruct (validate_lines (lines body));
    destruct (validate_country (country body));
    intros H; inversion H; subst; simpl; repeat split; reflexivity.
Qed.

Lemma RunRequest_validate_all (body : RunRequest) (f : str) (t : option str)
    (l c : str) :
  validate_from_date (from_date body) = Ret f ->
  validate_to_date (to_date body) = Ret t ->
  validate_lines (lines body) = Ret l ->
  validate_country (country body) = Ret c ->
  RunRequest_validate body =
  inl {| from_date := f; to_date := t; lines := l; country := c |}.
Proof. unfold RunRequest_validate. intros -> -> -> ->. reflexivity. Qed.

(** A failed validation reports at least one field. *)
Lemma RunRequest_validate_errors (body : RunRequest) (errors : list field_error) :
  RunRequest_validate body = inr errors -> errors <> [].
Proof.
  unfold RunRequest_validate.
  destruct (validate_from_date (from_date body));
    destruct (validate_to_date (to_date body));
    destruct (validate_lines (lines body));
    destruct (validate_country (country body));
    intros H; inversion H; subst; simpl; try discriminate;
    intros H2; apply app_eq_nil in H2; destruct H2 as [_ H2];
    try discriminate; apply app_eq_nil in H2; destruct H2 as [_ H2];
    try discriminate; apply app_eq_nil in H2; destruct H2 as [_ H2];
    discriminate.
Qed.

End Validators.

(** ** The handler [run_job] *)

Section RunJob.

Opaque MT.seed MT.random.

Lemma random_uniform_draw (a b : float) (k : nat) (g0 : MT.state) :
  random_uniform a b (after_draws k g0) =
  (Ret (scaled a b (fst (MT.random (after_draws k g0)))), after_draws (S k) g0).
Proof.
  unfold random_uniform, MT.uniform, scaled. simpl after_draws.
  destruct (MT.random (after_draws k g0)) as [r g']. reflexivity.
Qed.

Lemma divisible_growth (ln : Z) :
  divisible ln ->
  exists q, PyFloat.truediv ln 100 = Ret q /\ growth ln = (1 + q)%float.
Proof.
  unfold divisible, growth.
  destruct (PyFloat.truediv ln 100) as [q|e]; simpl; [|discriminate].
  intros _. now exists q.
Qed.

Lemma not_divisible_raises (ln : Z) :
  ~ divisible ln ->
  PyFloat.truediv ln 100 =
  Raise (OverflowError (lit "integer division result too large for a float")).
Proof.
  unfold divisible, PyFloat.truediv. simpl (100 =? 0)%Z. cbv iota.
  destruct (PyFloat.nearest_quotient ln 100); simpl; intros H;
    first [reflexivity | exfalso; apply H; reflexivity].
Qed.

(** One turn of the loop, started after [k] draws, produces the row that
    [row_at] describes and uses [stride] draws. *)
Lemma make_row_run (c : str) (rd : Datetime.datetime)
    (pd : option Datetime.datetime) (ln : Z) (k : nat) :
  divisible ln ->
  make_row c rd pd ln (after_draws k (MT.seed 42)) =
  (Ret (row_at c rd pd k ln), after_draws (k + stride pd) (MT.seed 42)).
Proof.
  intros Hd. destruct (divisible_growth ln Hd) as [q [Hq Hg]].
  unfold make_row, bind, lift, ret.
  rewrite random_uniform_draw, Hq.
  unfold row_at, draw. rewrite Hg.
  destruct pd as [d|]; simpl stride.
  - rewrite random_uniform_draw.
    replace (k + 2)%nat with (S (S k)) by lia. reflexivity.
  - replace (k + 1)%nat with (S k) by lia. reflexivity.
Qed.

Lemma for_each_rows (c : str) (rd : Datetime.datetime)
    (pd : option Datetime.datetime) (lns : list Z) (k : nat) :
  Forall divisible lns ->
  for_each lns (make_row c rd pd) (after_draws k (MT.seed 42)) =
  (Ret (rows_from c rd pd k lns),
   after_draws (k + stride pd * List.length lns) (MT.seed 42)).
Proof.
  intros H. revert k. induction H as [|ln r Hd _ IH]; intros k.
  - simpl. unfold ret. now rewrite Nat.mul_0_r, Nat.add_0_r.
  - simpl for_each. unfold bind at 1. rewrite make_row_run by exact Hd.
    unfold bind at 1. rewrite IH. unfold ret. simpl rows_from.
    simpl List.length. f_equal. f_equal. lia.
Qed.

(** The previous date as the handler computes it from the payload. *)
Lemma run_job_rows (payload : RunRequest) (g : MT.state)
    (rd : Datetime.datetime) (pd : option Datetime.datetime) (lns : list Z) :
  Datetime.strptime (from_date payload) = Ret rd ->
  match to_date payload with
  | Some t => t <> [] /\ exists d, Datetime.strptime t = Ret d /\ pd = Some d
  | None => pd = None
  end ->
  parse_line_numbers (lines payload) = Ret lns ->
  Forall divisible lns ->
  run_job payload g =
  (Ret (rows_from (country payload) rd pd 0 lns),
   after_draws (stride pd * List.length lns) (MT.seed 42)).
Proof.
  intros Hrd Hpd Hl Hdiv. unfold run_job, try_catch.
  unfold bind at 1, lift at 1. rewrite Hrd.
  unfold bind at 1, lift at 1.
  assert (Hp : match to_date payload with
               | Some t =>
                   if truthy t
                   then (d <- Datetime.strptime t ;; Ret (Some d))%out
                   else Ret None
               | None => Ret None
               end = Ret pd).
  { destruct (to_date payload) as [t|]; [|now subst].
    destruct Hpd as [Hne [d [Hd ->]]].
    destruct t; [congruence|]. simpl truthy. cbv iota. rewrite Hd. reflexivity. }
  rewrite Hp. unfold bind at 1, lift at 1. rewrite Hl.
  unfold bind at 1, random_seed.
  change (MT.seed 42) with (after_draws 0 (MT.seed 42)) at 1.
  rewrite for_each_rows by exact Hdiv. reflexivity.
Qed.

(** The rows of [rows_from], one per line number and in their order. *)
Lemma rows_from_lines (c : str) (rd : Datetime.datetime)
    (pd : option Datetime.datetime) (lns : list Z) (k : nat) :
  map LINE (rows_from c rd pd k lns) = lns.
Proof.
  revert k. induction lns as [|ln r IH]; intros k; simpl; [reflexivity|].
  now rewrite IH.
Qed.

Lemma rows_from_nth (c : str) (rd : Datetime.datetime)
    (pd : option Datetime.datetime) (lns : list Z) (k i : nat) (ln : Z) :
  nth_error lns i = Some ln ->
  nth_error (rows_from c rd pd k lns) i = Some (row_at c rd pd (k + stride pd * i) ln).
Proof.
  revert k i. induction lns as [|x r IH]; intros k i H.
  - destruct i; discriminate.
  - destruct i as [|i]; simpl in *.
    + inversion H; subst. now rewrite Nat.mul_0_r, Nat.add_0_r.
    + rewrite (IH _ _ H). f_equal. f_equal. lia.
Qed.

Lemma rows_from_In (c : str) (rd : Datetime.datetime)
    (pd : option Datetime.datetime) (lns : list Z) (k : nat) (row : OutputRow) :
  In row (rows_from c rd pd k lns) ->
  exists j ln, row = row_at c rd pd j ln.
Proof.
  revert k. induction lns as [|x r IH]; intros k; simpl; [tauto|].
  intros [<-|H]; [now exists k, x | exact (IH _ H)].
Qed.

(** The handler's answer does not depend on the generator it finds: it
    re-seeds before the first draw. *)
Lemma run_job_reseeds (payload : RunRequest) (g1 g2 : MT.state) :
  fst (run_job payload g1) = fst (run_job payload g2).
Proof.
  unfold run_job, try_catch.
  unfold bind at 2 4, lift at 3 6.
  destruct (Datetime.strptime (from_date payload)) as [rd|e]; [|reflexivity].
  unfold bind at 2 4, lift at 2 4.
  destruct (match to_date payload with
            | Some t =>
                if truthy t
                then (d <- Datetime.strptime t ;; Ret (Some d))%out
                else Ret None
            | None => Ret None
            end) as [pd|e]; [|reflexivity].
  unfold bind at 2 4, lift at 1 2.
  destruct (parse_line_numbers (lines payload)) as [lns|e]; [|reflexivity].
  unfold bind at 1 2, random_seed. reflexivity.
Qed.

(** Whatever happens in the handler, it returns rows or raises the
    [HTTPException] with status 400. *)
Lemma run_job_raises_400 (payload : RunRequest) (g : MT.state) (e : exn) :
  fst (run_job payload g) = Raise e ->
  exists detail, e = HTTPException 400 detail.
Proof.
  unfold run_job, try_catch.
  match goal with
  | |- context [match ?m g with _ => _ end] => destruct (m g) as [[rows|e0] g']
  end; simpl; intros H; [discriminate|].
  inversion H. eexists; reflexivity.
Qed.

End RunJob.

(** ** The route [POST /run] *)

Section PostRun.

Lemma post_run_invalid (body : RunRequest) (g : MT.state)
    (errors : list field_error) :
  RunRequest_validate body = inr errors ->
  post_run body g = (ValidationErrors 422 errors, g).
Proof. unfold post_run. intros ->. reflexivity. Qed.

(** The dates of a validated payload parse again in the handler. *)
Lemma valid_payload_dates (body payload : RunRequest) :
  RunRequest_validate body = inl payload ->
  exists rd pd,
    Datetime.strptime (from_date payload) = Ret rd /\
    match to_date payload with
    | Some t => t <> [] /\ exists d, Datetime.strptime t = Ret d /\ pd = Some d
    | None => pd = None
    end.
Proof.
  intros H. apply RunRequest_validate_inv in H.
  destruct H as [Hf [Ht _]].
  apply validate_from_date_inv in Hf. destruct Hf as [_ [rd Hrd]].
  apply validate_to_date_inv in Ht.
  destruct Ht as [[Hn _] | [w [d [_ [Hw [Hu Hd]]]]]].
  - exists rd, None. rewrite Hn. split; [exact Hrd | reflexivity].
  - exists rd, (Some d). rewrite Hu. split; [exact Hrd|].
    split; [now apply upper_nonempty | exists d; split; [exact Hd | reflexivity]].
Qed.

Lemma valid_payload_lines (body payload : RunRequest) :
  RunRequest_validate body = inl payload ->
  lines payload = join (lit ",") (stripped_parts (lines body)) /\
  stripped_parts (lines body) <> [] /\
  parse_line_numbers (lines payload) =
  Ret (map token_value (stripped_parts (lines body))).
Proof.
  intros H. apply RunRequest_validate_inv in H.
  destruct H as [_ [_ [Hl _]]].
  pose proof (validated_lines_parse _ _ Hl) as Hp.
  apply validate_lines_inv in Hl. destruct Hl as [Hne [Hj _]].
  repeat split; assumption.
Qed.

(** For a valid request whose line numbers can all be divided by 100 the
    handler returns the rows of [rows_from], and the route renders them. *)
Lemma post_run_rows (body payload : RunRequest) (g : MT.state) (lns : list Z) :
  RunRequest_validate body = inl payload ->
  parse_line_numbers (lines payload) = Ret lns ->
  Forall divisible lns ->
  exists rd pd,
    Datetime.strptime (from_date payload) = Ret rd /\
    match to_date payload with
    | Some t => exists d, Datetime.strptime t = Ret d /\ pd = Some d
    | None => pd = None
    end /\
    fst (run_job payload g) = Ret (rows_from (country payload) rd pd 0 lns) /\
    fst (post_run body g) = render (rows_from (country payload) rd pd 0 lns).
Proof.
  intros Hv Hl Hd.
  destruct (valid_payload_dates _ _ Hv) as [rd [pd [Hrd Hpd]]].
  exists rd, pd. split; [exact Hrd|]. split.
  - destruct (to_date payload); [destruct Hpd as [_ Hpd]|]; exact Hpd.
  - unfold post_run. rewrite Hv.
    rewrite (run_job_rows payload g rd pd lns Hrd Hpd Hl Hd).
    split; reflexivity.
Qed.

End PostRun.

(** ** Claims about the generated rows *)

Section Rows.


(** A line number of 310 digits can still be divided by 100, but the value
    of its row overflows to infinity, which JSON cannot carry: the handler
    returns a row and the route answers with an internal server error. *)
Lemma infinite_value_is_not_rendered :
  (exists payload row,
     RunRequest_validate infinite_value_request = inl payload /\
     fst (run_job payload some_generator) = Ret [row] /\
     VALUE row = infinity) /\
  fst (post_run infinite_value_request some_generator) = internal_server_error.
Proof.
  split; [do 2 eexists; split; [vm_compute; reflexivity|]|].
  - split; vm_compute; reflexivity.
  - vm_compute. reflexivity.
Qed.



(** C2: two calls with the same body give the same response, whatever the
    generator was before each call, because the handler re-seeds it with 42;
    in particular a second call right after the first repeats its rows and
    their VALUE fields. *)
Theorem post_run_deterministic (body : RunRequest) (g1 g2 : MT.state) :
  fst (post_run body g1) = fst (post_run body g2) /\
  fst (post_run body (snd (post_run body g1))) = fst (post_run body g1).
Proof.
  assert (H : forall a b, fst (post_run body a) = fst (post_run body b)).
  { intros a b. unfold post_run.
    destruct (RunRequest_validate body) as [payload|errors]; [|reflexivity].
    pose proof (run_job_reseeds payload a b) as Hr.
    destruct (run_job payload a) as [[rows|e] a'];
      destruct (run_job payload b) as [[rows'|e'] b']; simpl in Hr;
      inversion Hr; subst; [reflexivity|].
    destruct e'; reflexivity. }
  split; apply H.
Qed.

(** C3: the request from_date=31AUG2019, lines=6,17, country=SG without
    to_date succeeds with exactly two rows, for lines 6 and 17 in that
    order, whose PREV_DATE, PREV_VALUE and DELTA are the empty string (and
    whose values are 3771.17 and 1287.05). *)
Theorem example_request_rows (g : MT.state) :
  exists r1 r2,
    fst (post_run example_request g) = Rows [r1; r2] /\
    LINE r1 = 6%Z /\ LINE r2 = 17%Z /\
    empty_previous r1 /\ empty_previous r2 /\
    VALUE r1 = 3771.17%float /\ VALUE r2 = 1287.05%float.
Proof.
  do 2 eexists. split; [vm_compute; reflexivity|].
  unfold empty_previous. simpl. repeat split; reflexivity.
Qed.

End Rows.

(** ** Claims about the [lines] field *)

Section Lines.

Lemma kept_nil (tokens : list str) :
  Forall blank tokens -> kept tokens = [].
Proof.
  unfold kept, blank. induction 1 as [|t r Ht _ IH]; simpl; [reflexivity|].
  rewrite Ht. simpl. exact IH.
Qed.

Lemma kept_nonempty (tokens : list str) :
  Exists (fun t => ~ blank t) tokens -> kept tokens <> [].
Proof.
  unfold kept, blank. induction 1 as [t r Ht | t r _ IH]; simpl.
  - destruct (strip t) eqn:E; [congruence|]. simpl. discriminate.
  - destruct (truthy (strip t)); simpl; [discriminate | exact IH].
Qed.

Lemma kept_numeric (tokens : list str) :
  Forall (fun t => blank t \/ numeric t) tokens ->
  Forall (fun p => PyInt.parse p <> None) (kept tokens).
Proof.
  unfold kept, blank, numeric. induction 1 as [|t r Ht _ IH]; simpl; [constructor|].
  destruct (strip t) as [|c q] eqn:E; simpl; [exact IH|].
  constructor; [|exact IH]. rewrite E. destruct Ht as [Ht|Ht]; [discriminate | exact Ht].
Qed.

Lemma kept_not_numeric (tokens : list str) :
  Exists (fun t => ~ blank t /\ ~ numeric t) tokens ->
  Exists (fun p => PyInt.parse p = None) (kept tokens).
Proof.
  unfold kept, blank, numeric. induction 1 as [t r [Hb Hn] | t r _ IH]; simpl.
  - destruct (strip t) as [|c q] eqn:E; [congruence|]. simpl.
    apply Exists_cons_hd. rewrite E.
    destruct (PyInt.parse (c :: q)); [exfalso; apply Hn; discriminate | reflexivity].
  - destruct (truthy (strip t)); simpl; [apply Exists_cons_tl|]; exact IH.
Qed.






End Lines.

(** ** Claims about the [country] field and about rejected bodies *)

Section Rejections.




Lemma validate_from_date_raises (v : str) (e : exn) :
  validate_from_date v = Raise e -> e = ValueError from_date_message.
Proof.
  unfold validate_from_date.
  destruct (Datetime.strptime (upper v)); simpl; intros H; inversion H; reflexivity.
Qed.

Lemma validate_to_date_raises (v : option str) (e : exn) :
  validate_to_date v = Raise e -> e = ValueError to_date_message.
Proof.
  destruct v as [[|c w]|]; simpl; try discriminate.
  destruct (Datetime.strptime (upper_char c :: upper w)); simpl;
    intros H; inversion H; reflexivity.
Qed.

Lemma validate_lines_raises (v : str) (e : exn) :
  validate_lines v = Raise e -> e = ValueError lines_message.
Proof.
  rewrite validate_lines_eq.
  destruct (stripped_parts v); [intros H; inversion H; reflexivity|].
  destruct (omap int (s :: l)); intros H; inversion H; reflexivity.
Qed.

Lemma validate_country_raises (v : str) (e : exn) :
  validate_country v = Raise e -> e = ValueError country_message.
Proof.
  rewrite validate_country_eq.
  destruct (_ || _)%bool; intros H; inversion H; reflexivity.
Qed.




(** The handler's status 400 is reached by a valid request only. *)
Lemma status_400_comes_from_the_handler (body : RunRequest) (g : MT.state)
    (detail : str) :
  fst (post_run body g) = ErrorDetail 400 detail ->
  exists payload,
    RunRequest_validate body = inl payload /\
    fst (run_job payload g) = Raise (HTTPException 400 detail).
Proof.
  unfold post_run.
  destruct (RunRequest_validate body) as [payload|errors]; [|discriminate].
  intros H. exists payload. split; [reflexivity|].
  destruct (run_job payload g) as [[rows|e] g'] eqn:E;
    [unfold render in H; destruct (forallb renderable rows); discriminate|].
  pose proof (run_job_raises_400 payload g e) as H4. rewrite E in H4.
  destruct (H4 eq_refl) as [d ->]. simpl in *. inversion H. reflexivity.
Qed.

End Rejections.

(** ** The empty previous date *)

Section EmptyToDate.

Lemma rows_without_previous (c : str) (rd : Datetime.datetime)
    (lns : list Z) (k : nat) :
  Forall empty_previous (rows_from c rd None k lns).
Proof.
  revert k. induction lns as [|ln r IH]; intros k; simpl; constructor.
  - unfold empty_previous. simpl. repeat split; reflexivity.
  - apply IH.
Qed.

Lemma validate_with_to_date (body : RunRequest) :
  RunRequest_validate (with_to_date (Some []) body) =
  RunRequest_validate (with_to_date None body).
Proof. reflexivity. Qed.



End EmptyToDate.

(** ** The diagnostic route *)

Section Diagnostic.

Ltac run_body :=
  unfold bind, try_catch, lift, set_database, set_database_url,
    set_database_name, set_connection_status, set_collections, modify,
    get_state, read_name;
  cbn -[firstn lit slice_to is_ImportError app].

(** C9: [test_database] returns a response in every case and never raises.
    The response has the six fields; [database_url] and [database_name]
    report the environment; [collections] holds at most ten names.  When the
    module is absent, or present with [db] unset, the response says so in
    [database], is not connected and lists no collection; when [db] is
    there, the response is connected, and lists the first ten collection
    names, or none with the error text in [database] when listing fails. *)
Theorem test_database_never_raises (imported : import_db) (env : Environ) :
  exists r,
    test_database imported env = Ret r /\
    backend r = lit "✅ Running" /\
    database_url r =
      Some (if getenv_truthy (DATABASE_URL env) then lit "✅ Set" else lit "❌ Not Set") /\
    database_name r =
      Some (if getenv_truthy (DATABASE_NAME env) then lit "✅ Set" else lit "❌ Not Set") /\
    (List.length (collections r) <= 10)%nat /\
    match imported with
    | Raise e =>
        connection_status r = lit "Not Connected" /\ collections r = [] /\
        database r =
          (if is_ImportError e
           then lit "❌ Database module not found (run enable-database first)"
           else lit "❌ Error: " ++ slice_to 50 (str_of_exn e))
    | Ret None =>
        connection_status r = lit "Not Connected" /\ collections r = [] /\
        database r = lit "⚠️  Available but not initialized"
    | Ret (Some db) =>
        match name db, list_collection_names db with
        | AttributeRaises e, _ =>
            connection_status r = lit "Not Connected" /\ collections r = [] /\
            database r =
              (if is_ImportError e
               then lit "❌ Database module not found (run enable-database first)"
               else lit "❌ Error: " ++ slice_to 50 (str_of_exn e))
        | _, Ret names =>
            connection_status r = lit "Connected" /\
            collections r = slice_to 10 names /\
            database r = lit "✅ Connected & Working"
        | _, Raise e =>
            connection_status r = lit "Connected" /\ collections r = [] /\
            database r = lit "⚠️  Connected but Error: " ++ slice_to 50 (str_of_exn e)
        end
    end.
Proof.
  unfold test_database, test_database_body.
  destruct imported as [[db|]|e].
  - destruct db as [nm ls]. destruct nm as [|v|e].
    + destruct ls as [names|e]; run_body; eexists; (split; [reflexivity|]);
        run_body; repeat split;
        solve [reflexivity | apply firstn_le_length | apply Nat.le_0_l].
    + destruct ls as [names|e]; run_body; eexists; (split; [reflexivity|]);
        run_body; repeat split;
        solve [reflexivity | apply firstn_le_length | apply Nat.le_0_l].
    + run_body. destruct (is_ImportError e); eexists;
        (split; [reflexivity|]); run_body; repeat split;
        solve [reflexivity | apply Nat.le_0_l].
  - run_body. eexists. split; [reflexivity|].
    run_body. repeat split; solve [reflexivity | apply Nat.le_0_l].
  - run_body. destruct (is_ImportError e); eexists;
      (split; [reflexivity|]); run_body; repeat split;
      solve [reflexivity | apply Nat.le_0_l].
Qed.

End Diagnostic.

(** ** Dates: parsing and printing back *)

Section Dates.

Import Datetime.

Lemma str_eqb_eq (a b : str) : str_eqb a b = true -> a = b.
Proof.
  revert b. induction a as [|x a IH]; destruct b as [|y b]; simpl;
    try discriminate; [reflexivity|].
  intros H. apply andb_true_iff in H. destruct H as [H1 H2].
  apply Ascii.eqb_eq in H1. now rewrite H1, (IH _ H2).
Qed.

Ltac each_char c := destruct c as [[] [] [] [] [] [] [] []].

Lemma upper_char_idem (c : ascii) : upper_char (upper_char c) = upper_char c.
Proof. each_char c; reflexivity. Qed.

Lemma upper_lower_char (c : ascii) : upper_char (lower_char c) = upper_char c.
Proof. each_char c; reflexivity. Qed.

Lemma isdigit_digits10 (c : ascii) : isdigit c = true -> In c digits10.
Proof. each_char c; intros H; try discriminate H; simpl; tauto. Qed.

Lemma isdigit_upper_char (c : ascii) : isdigit (upper_char c) = isdigit c.
Proof. each_char c; reflexivity. Qed.

Lemma upper_char_digit (c : ascii) : isdigit c = true -> upper_char c = c.
Proof. each_char c; intros H; try discriminate H; reflexivity. Qed.

Lemma upper_char_zero (c : ascii) : upper_char c = "0"%char -> c = "0"%char.
Proof. each_char c; intros H; try discriminate H; reflexivity. Qed.

Lemma upper_idem (s : str) : upper (upper s) = upper s.
Proof.
  unfold upper. rewrite map_map. apply map_ext. apply upper_char_idem.
Qed.

Lemma upper_lower (s : str) : upper (lower s) = upper s.
Proof.
  unfold upper, lower. rewrite map_map. apply map_ext. apply upper_lower_char.
Qed.

Lemma upper_app (a b : str) : upper (a ++ b) = upper a ++ upper b.
Proof. apply map_app. Qed.

Lemma forallb_digits (f : ascii -> bool) (c : ascii) :
  forallb f digits10 = true -> isdigit c = true -> f c = true.
Proof.
  intros H Hc. rewrite forallb_forall in H. apply H.
  now apply isdigit_digits10.
Qed.

(** Two digits read by [int] and printed on two digits are the same text
    (checked on the hundred pairs). *)
Lemma day_text_checked :
  forallb (fun d1 => forallb (fun d2 =>
    match PyInt.parse [d1; d2] with
    | Some n => str_eqb (zero_pad2 (decimal n)) [d1; d2]
    | None => false
    end) digits10) digits10 = true.
Proof. vm_compute. reflexivity. Qed.

(** Four digits, the first not 0, read by [int] and printed are the same
    text (checked on the ten thousand quadruples). *)
Lemma year_text_checked :
  forallb (fun y1 => forallb (fun y2 => forallb (fun y3 => forallb (fun y4 =>
    Ascii.eqb y1 "0"%char ||
    match PyInt.parse [y1; y2; y3; y4] with
    | Some n => str_eqb (decimal n) [y1; y2; y3; y4]
    | None => false
    end) digits10) digits10) digits10) digits10 = true.
Proof. vm_compute. reflexivity. Qed.

Lemma day_text (d1 d2 : ascii) :
  isdigit d1 = true -> isdigit d2 = true ->
  exists n, PyInt.parse [d1; d2] = Some n /\ zero_pad2 (decimal n) = [d1; d2].
Proof.
  intros H1 H2.
  pose proof (forallb_digits _ d1 day_text_checked H1) as C1. cbv beta in C1.
  pose proof (forallb_digits _ d2 C1 H2) as C. cbv beta in C.
  destruct (PyInt.parse [d1; d2]) as [n|]; [|discriminate].
  exists n. split; [reflexivity | now apply str_eqb_eq].
Qed.

Lemma year_text (y1 y2 y3 y4 : ascii) :
  isdigit y1 = true -> isdigit y2 = true -> isdigit y3 = true ->
  isdigit y4 = true -> y1 <> "0"%char ->
  exists n, PyInt.parse [y1; y2; y3; y4] = Some n /\
            decimal n = [y1; y2; y3; y4].
Proof.
  intros H1 H2 H3 H4 Hz.
  pose proof (forallb_digits _ y1 year_text_checked H1) as C1. cbv beta in C1.
  pose proof (forallb_digits _ y2 C1 H2) as C2. cbv beta in C2.
  pose proof (forallb_digits _ y3 C2 H3) as C3. cbv beta in C3.
  pose proof (forallb_digits _ y4 C3 H4) as C. cbv beta in C.
  apply orb_true_iff in C. destruct C as [C|C].
  - apply Ascii.eqb_eq in C. congruence.
  - destruct (PyInt.parse [y1; y2; y3; y4]) as [n|]; [|discriminate].
    exists n. split; [reflexivity | now apply str_eqb_eq].
Qed.

(** No month name starts with a digit. *)
Lemma month_of_digit (c : ascii) (r : str) :
  isdigit c = true -> month_of (c :: r) = None.
Proof.
  intros H. apply isdigit_digits10 in H. simpl in H.
  repeat (destruct H as [<-|H]; [reflexivity|]). destruct H.
Qed.

Lemma after_d_digit (d : str) (c : ascii) (r : str) :
  isdigit c = true -> after_d d (c :: r) = None.
Proof.
  intros H. unfold after_d, b_group.
  destruct r as [|a [|b r]]; try reflexivity.
  now rewrite month_of_digit.
Qed.

Lemma digit_not_space (c : ascii) :
  isdigit c = true -> is_char " "%char c = false.
Proof. each_char c; intros H; try discriminate H; reflexivity. Qed.

(** On a text that starts with two digits, the day group can only be these
    two digits. *)
Lemma regex_match_two_digits (d1 d2 : ascii) (r : str) (f : found) :
  isdigit d1 = true -> isdigit d2 = true ->
  regex_match d_alternatives (d1 :: d2 :: r) = Some f ->
  after_d [d1; d2] r = Some f.
Proof.
  intros H1 H2. unfold d_alternatives, regex_match, two_chars, one_char.
  cbn beta iota. rewrite (digit_not_space d1 H1). cbn [andb].
  destruct (is_char "3"%char d1 && digit_between 0 1 d2);
    destruct (digit_between 1 2 d1 && isdigit d2);
    destruct (is_char "0"%char d1 && digit_between 1 9 d2);
    destruct (digit_between 1 9 d1);
    cbn beta iota; rewrite ?(after_d_digit [d1] d2 r H2);
    destruct (after_d [d1; d2] r); intros H;
    first [exact H | discriminate H].
Qed.

Lemma month_of_name (b : str) (m : Z) :
  month_of b = Some m ->
  upper (nth (Z.to_nat (m - 1)) month_abbr []) = upper b.
Proof.
  unfold month_of, month_abbr.
  cbn [map month_index lit list_ascii_of_string lower].
  repeat match goal with
         | |- context [if str_eqb ?n (lower b) then _ else _] =>
             let E := fresh "E" in
             destruct (str_eqb n (lower b)) eqn:E;
             [ apply str_eqb_eq in E; intros H; inversion H; subst m;
               rewrite <- (upper_lower b), <- E; reflexivity
             | clear E ]
         end.
  discriminate.
Qed.

Lemma make_date_inv (y m d : Z) (dt : datetime) :
  make_date y m d = Ret dt -> dt = {| year := y; month := m; day := d |}.
Proof.
  unfold make_date.
  destruct (negb _); [discriminate|]. destruct (negb _); [discriminate|].
  intros H. inversion H. reflexivity.
Qed.

(** Printing a parsed date gives the text back up to the case of the
    letters, when the day has two digits and the year no leading zero. *)
Lemma strptime_strftime (u : str) (dt : datetime) :
  canonical_date u ->
  strptime u = Ret dt ->
  upper (strftime dt) = upper u.
Proof.
  destruct u as [|d1 [|d2 [|m1 [|m2 [|m3 [|y1 [|y2 [|y3 [|y4 [|x r]]]]]]]]]];
    simpl canonical_date; try tauto.
  intros [Hd1 [Hd2 Hy1]]. unfold strptime.
  destruct (regex_match d_alternatives _) as [f|] eqn:E; [|discriminate].
  apply regex_match_two_digits in E; [|assumption|assumption].
  unfold after_d, b_group, Y_group in E.
  destruct (month_of [m1; m2; m3]) as [m|] eqn:Em; [|discriminate].
  destruct (isdigit y1 && isdigit y2 && isdigit y3 && isdigit y4) eqn:Ey;
    [|discriminate].
  inversion E; subst f; clear E. cbn [rest grp_d grp_Y grp_b truthy].
  apply andb_true_iff in Ey. destruct Ey as [Ey Hy4].
  apply andb_true_iff in Ey. destruct Ey as [Ey Hy3].
  apply andb_true_iff in Ey. destruct Ey as [Hy1d Hy2].
  destruct (day_text d1 d2 Hd1 Hd2) as [dd [Pd Td]].
  destruct (year_text y1 y2 y3 y4 Hy1d Hy2 Hy3 Hy4 Hy1) as [yy [Py Ty]].
  unfold int. rewrite Pd, Py. cbn [obind]. rewrite Em.
  intros H. apply make_date_inv in H. subst dt.
  unfold strftime. cbn [year month day].
  rewrite Td, Ty, !upper_app, (month_of_name _ _ Em).
  unfold upper. simpl map.
  rewrite !upper_char_digit by assumption. reflexivity.
Qed.

Lemma canonical_upper (v : str) : canonical_date v -> canonical_date (upper v).
Proof.
  destruct v as [|d1 [|d2 [|m1 [|m2 [|m3 [|y1 [|y2 [|y3 [|y4 [|x r]]]]]]]]]];
    simpl; try tauto.
  rewrite !isdigit_upper_char. intros [H1 [H2 H3]].
  repeat split; try assumption. intros H. apply H3. now apply upper_char_zero.
Qed.

End Dates.

(** ** The dates of the rows *)

Section RowDates.

(** C4, the claim as stated fails: 31AUG2019 is accepted, and the
    REPORT_DATE of the rows is 31Aug2019, which is not the upper-case text
    that was submitted; likewise PREV_DATE is 31Jul2019 for 31JUL2019. *)
Lemma report_date_is_title_case :
  validate_from_date (lit "31AUG2019") = Ret (lit "31AUG2019") /\
  exists row rest,
    fst (post_run example_request_with_previous some_generator)
    = Rows (row :: rest) /\
    REPORT_DATE row = lit "31Aug2019" /\
    REPORT_DATE row <> upper (from_date example_request_with_previous) /\
    PREV_DATE row = lit "31Jul2019" /\
    Some (PREV_DATE row) <>
      option_map upper (to_date example_request_with_previous).
Proof.
  split; [vm_compute; reflexivity|].
  do 2 eexists. split; [vm_compute; reflexivity|].
  repeat split; try reflexivity; vm_compute; discriminate.
Qed.

(** C4 (amended): for every accepted from_date (resp. to_date) the
    validated field is the upper-case of the submitted string, it parses
    again in the handler, and REPORT_DATE (resp. PREV_DATE) is the parsed
    date printed with the same format, whose month name is in title case.
    Put in upper case it equals the validated string whenever the
    submitted date has a two-digit day and a year without leading zero. *)
Theorem dates_round_trip_up_to_case (body payload : RunRequest)
    (g : MT.state) (lns : list Z) :
  RunRequest_validate body = inl payload ->
  parse_line_numbers (lines payload) = Ret lns ->
  Forall divisible lns ->
  from_date payload = upper (from_date body) /\
  (forall w, to_date payload = Some w ->
     exists w0, to_date body = Some w0 /\ w = upper w0) /\
  exists report rows,
    Datetime.strptime (from_date payload) = Ret report /\
    fst (post_run body g) = render rows /\
    List.length rows = List.length lns /\
    forall row, In row rows ->
      REPORT_DATE row = Datetime.strftime report /\
      (canonical_date (from_date body) ->
       upper (REPORT_DATE row) = from_date payload) /\
      match to_date payload with
      | Some w =>
          exists prev,
            Datetime.strptime w = Ret prev /\
            PREV_DATE row = Datetime.strftime prev /\
            (canonical_date w -> upper (PREV_DATE row) = w)
      | None => PREV_DATE row = []
      end.
Proof.
  intros Hv Hl Hd.
  pose proof (RunRequest_validate_inv _ _ Hv) as [Hf [Ht _]].
  apply validate_from_date_inv in Hf. destruct Hf as [Hu _].
  apply validate_to_date_inv in Ht.
  split; [exact Hu|]. split.
  { intros w Hw. destruct Ht as [[Hn _] | [w0 [d [Hb [_ [Hp _]]]]]].
    - congruence.
    - exists w0. split; [exact Hb | congruence]. }
  destruct (post_run_rows body payload g lns Hv Hl Hd)
    as [rd [pd [Hrd [Hpd [_ Hr]]]]].
  exists rd, (rows_from (country payload) rd pd 0 lns).
  split; [exact Hrd|]. split; [exact Hr|]. split.
  { rewrite <- (rows_from_lines (country payload) rd pd lns 0) at 2.
    now rewrite length_map. }
  intros row Hin. apply rows_from_In in Hin. destruct Hin as [j [ln ->]].
  unfold row_at. cbn [REPORT_DATE PREV_DATE].
  split; [reflexivity|]. split.
  { intros Hc. rewrite Hu in Hrd |- *.
    rewrite (strptime_strftime _ _ (canonical_upper _ Hc) Hrd).
    apply upper_idem. }
  destruct (to_date payload) as [w|] eqn:Ew.
  - destruct Hpd as [d [Hdw ->]]. exists d.
    split; [exact Hdw|]. split; [reflexivity|].
    intros Hc. rewrite (strptime_strftime _ _ Hc Hdw).
    destruct Ht as [[Hn _] | [w0 [d0 [_ [_ [Hp _]]]]]]; [discriminate|].
    inversion Hp. apply upper_idem.
  - now subst pd.
Qed.

(** The amended C4 on the request with both dates, in lower case. *)
Lemma dates_round_trip_up_to_case_witness :
  exists report rows,
    Datetime.strptime (lit "31AUG2019") = Ret report /\
    fst (post_run {| from_date := lit "31aug2019";
                     to_date := Some (lit "31jul2019");
                     lines := lit "6,17"; country := lit "SG" |}
                  some_generator) = render rows /\
    List.length rows = 2%nat.
Proof.
  destruct (dates_round_trip_up_to_case
              {| from_date := lit "31aug2019";
                 to_date := Some (lit "31jul2019");
                 lines := lit "6,17"; country := lit "SG" |}
              example_request_with_previous some_generator [6; 17]%Z)
    as [_ [_ [report [rows [H1 [H2 [H3 _]]]]]]].
  - vm_compute. reflexivity.
  - vm_compute. reflexivity.
  - repeat constructor.
  - exists report, rows. split; [exact H1|]. split; [exact H2 | exact H3].
Defined.

End RowDates.

(** ** Line numbers that cannot be divided *)

Section Overflow.

Lemma make_row_total (c : str) (rd : Datetime.datetime)
    (pd : option Datetime.datetime) (ln : Z) (g : MT.state) :
  divisible ln ->
  exists row g', make_row c rd pd ln g = (Ret row, g').
Proof.
  intros Hd. destruct (divisible_growth ln Hd) as [q [Hq _]].
  unfold make_row, bind, lift, ret, random_uniform.
  destruct (MT.uniform 1000 5000 g) as [base g1]. rewrite Hq.
  destruct pd as [d|].
  - destruct (MT.uniform 0.9 1.1 g1) as [f g2]. do 2 eexists. reflexivity.
  - do 2 eexists. reflexivity.
Qed.

Lemma make_row_overflow (c : str) (rd : Datetime.datetime)
    (pd : option Datetime.datetime) (ln : Z) (g : MT.state) :
  ~ divisible ln ->
  exists g',
    make_row c rd pd ln g =
    (Raise (OverflowError (lit "integer division result too large for a float")),
     g').
Proof.
  intros Hd. unfold make_row, bind, lift, random_uniform.
  destruct (MT.uniform 1000 5000 g) as [base g1].
  rewrite (not_divisible_raises ln Hd). eexists. reflexivity.
Qed.

(** The loop stops at the first line number that cannot be divided. *)
Lemma for_each_overflow (c : str) (rd : Datetime.datetime)
    (pd : option Datetime.datetime) (lns : list Z) (g : MT.state) :
  Exists (fun ln => ~ divisible ln) lns ->
  exists g',
    for_each lns (make_row c rd pd) g =
    (Raise (OverflowError (lit "integer division result too large for a float")),
     g').
Proof.
  revert g. induction lns as [|ln r IH]; intros g H; [inversion H|].
  simpl for_each. unfold bind at 1.
  destruct (is_ret (PyFloat.truediv ln 100)) eqn:E.
  - destruct (make_row_total c rd pd ln g E) as [row [g1 ->]].
    inversion H as [? ? Hn | ? ? Hr]; subst; [exfalso; exact (Hn E)|].
    unfold bind at 1. destruct (IH g1 Hr) as [g2 ->]. eexists. reflexivity.
  - assert (Hn : ~ divisible ln) by (unfold divisible; congruence).
    destruct (make_row_overflow c rd pd ln g Hn) as [g1 ->].
    eexists. reflexivity.
Qed.

(** A valid request with such a line number is answered with status 400
    and the text of the [OverflowError]. *)
Lemma post_run_overflow (body payload : RunRequest) (g : MT.state)
    (lns : list Z) :
  RunRequest_validate body = inl payload ->
  parse_line_numbers (lines payload) = Ret lns ->
  Exists (fun ln => ~ divisible ln) lns ->
  fst (post_run body g) =
  ErrorDetail 400 (lit "integer division result too large for a float").
Proof.
  intros Hv Hl Hex.
  destruct (valid_payload_dates _ _ Hv) as [rd [pd [Hrd Hpd]]].
  unfold post_run. rewrite Hv. unfold run_job, try_catch.
  unfold bind at 1, lift at 1. rewrite Hrd.
  unfold bind at 1, lift at 1.
  assert (Hp : match to_date payload with
               | Some t =>
                   if truthy t
                   then (d <- Datetime.strptime t ;; Ret (Some d))%out
                   else Ret None
               | None => Ret None
               end = Ret pd).
  { destruct (to_date payload) as [t|]; [|now subst].
    destruct Hpd as [Hne [d [Hd ->]]].
    destruct t; [congruence|]. simpl truthy. cbv iota. rewrite Hd. reflexivity. }
  rewrite Hp. unfold bind at 1, lift at 1. rewrite Hl.
  unfold bind at 1, random_seed.
  destruct (for_each_overflow (country payload) rd pd lns (MT.seed 42) Hex)
    as [g' ->].
  reflexivity.
Qed.

End Overflow.

(** ** The run time on known values *)

Section KnownValues.

(** The first numbers of [random()] after [random.seed(42)]. *)
Example seed_42_draws :
  [draw 0; draw 1; draw 2] =
  [0.6394267984578837; 0.025010755222666936; 0.27502931836911926]%float.
Proof. vm_compute. reflexivity. Qed.

(** [round] rounds the binary value, ties to even: 2.675 is below the
    decimal 2.675, and 0.125 is a tie. *)
Example round_examples :
  [PyFloat.round 2.675 2; PyFloat.round 0.125 2; PyFloat.round 3771.169625461427 2]
  = [2.67; 0.12; 3771.17]%float.
Proof. vm_compute. reflexivity. Qed.

Example truediv_examples :
  PyFloat.truediv 6 100 = Ret 0.06%float /\
  PyFloat.truediv (-100) 100 = Ret (-1)%float /\
  PyFloat.truediv (10 ^ 310) 100 = Ret 1e308%float /\
  is_ret (PyFloat.truediv (10 ^ 400) 100) = false.
Proof. repeat split; vm_compute; reflexivity. Qed.

Example int_examples :
  map (fun s => PyInt.parse (lit s)) ["6"; "-100"; "+5"; "1_000"; "007"; "1__0"; "x"; ""]%string
  = [Some 6; Some (-100); Some 5; Some 1000; Some 7; None; None; None]%Z.
Proof. vm_compute. reflexivity. Qed.

Example strptime_examples :
  Datetime.strptime (lit "31AUG2019")
    = Ret {| Datetime.year := 2019; Datetime.month := 8; Datetime.day := 31 |} /\
  Datetime.strptime (lit "1AUG2019")
    = Ret {| Datetime.year := 2019; Datetime.month := 8; Datetime.day := 1 |} /\
  Datetime.strptime (lit "29FEB2019")
    = Raise (ValueError (lit "day is out of range for month")) /\
  Datetime.strptime (lit "31AUG2019 ")
    = Raise (ValueError (lit "unconverted data remains:  ")) /\
  Datetime.strptime (lit "2019-08-31")
    = Raise (ValueError
               (lit "time data '2019-08-31' does not match format '%d%b%Y'")).
Proof. repeat split; vm_compute; reflexivity. Qed.

End KnownValues.

(* ================================================================== *)
(** * Part III: further properties of the program *)
(* ================================================================== *)

(** ** Normal forms of the validated fields *)

Section NormalForms.

Ltac all_chars c := destruct c as [[] [] [] [] [] [] [] []].

Lemma isspace_upper_char (c : ascii) : isspace (upper_char c) = isspace c.
Proof. all_chars c; reflexivity. Qed.

Lemma isspace_lower_char (c : ascii) : isspace (lower_char c) = isspace c.
Proof. all_chars c; reflexivity. Qed.

(** Stripping commutes with a change of characters that keeps the blanks. *)
Lemma lstrip_map (f : ascii -> ascii) (s : str) :
  (forall c, isspace (f c) = isspace c) ->
  lstrip (map f s) = map f (lstrip s).
Proof.
  intros Hf. induction s as [|c r IH]; simpl; [reflexivity|].
  rewrite Hf. destruct (isspace c); [exact IH | reflexivity].
Qed.

Lemma strip_map (f : ascii -> ascii) (s : str) :
  (forall c, isspace (f c) = isspace c) ->
  strip (map f s) = map f (strip s).
Proof.
  intros Hf. unfold strip, rstrip.
  rewrite (lstrip_map f s Hf), <- map_rev, (lstrip_map f _ Hf), map_rev.
  reflexivity.
Qed.

Lemma strip_upper (s : str) : strip (upper s) = upper (strip s).
Proof. apply strip_map, isspace_upper_char. Qed.

Lemma strip_lower (s : str) : strip (lower s) = lower (strip s).
Proof. apply strip_map, isspace_lower_char. Qed.

Lemma validate_from_date_normal (v u : str) :
  validate_from_date v = Ret u -> validate_from_date u = Ret u.
Proof.
  intros H. apply validate_from_date_inv in H. destruct H as [-> [d Hd]].
  unfold validate_from_date. rewrite upper_idem, Hd. reflexivity.
Qed.

Lemma validate_to_date_normal (v t : option str) :
  validate_to_date v = Ret t -> validate_to_date t = Ret t.
Proof.
  intros H. apply validate_to_date_inv in H.
  destruct H as [[-> _] | [w [d [_ [Hw [-> Hd]]]]]]; [reflexivity|].
  apply upper_nonempty in Hw.
  destruct (upper w) as [|c r] eqn:E; [congruence|].
  assert (Hu : upper (c :: r) = c :: r) by (rewrite <- E; apply upper_idem).
  unfold validate_to_date. rewrite Hu, Hd. reflexivity.
Qed.

Lemma validate_lines_normal (v l : str) :
  validate_lines v = Ret l -> validate_lines l = Ret l.
Proof.
  intros H. apply validate_lines_inv in H. destruct H as [Hne [-> Hm]].
  rewrite validate_lines_eq, (stripped_parts_join v Hne), Hm.
  destruct (stripped_parts v); [congruence | reflexivity].
Qed.

Lemma validate_country_normal (v c : str) :
  validate_country v = Ret c -> validate_country c = Ret c.
Proof.
  rewrite !validate_country_eq. intros H.
  destruct (_ || _)%bool eqn:E in H; [|discriminate].
  inversion H; subst c.
  rewrite strip_upper, strip_idem, upper_idem, E. reflexivity.
Qed.

(** X1: validation is idempotent.  The payload that validation builds from
    a body is accepted again, field by field, and comes back unchanged: the
    validated values are already in the form the validators produce. *)
Theorem validation_is_idempotent (body payload : RunRequest) :
  RunRequest_validate body = inl payload ->
  RunRequest_validate payload = inl payload.
Proof.
  intros H. apply RunRequest_validate_inv in H.
  destruct H as [Hf [Ht [Hl Hc]]].
  rewrite (RunRequest_validate_all payload _ _ _ _
             (validate_from_date_normal _ _ Hf) (validate_to_date_normal _ _ Ht)
             (validate_lines_normal _ _ Hl) (validate_country_normal _ _ Hc)).
  destruct payload; reflexivity.
Qed.

(** X1 on a body in lower case with blanks. *)
Lemma validation_is_idempotent_witness :
  RunRequest_validate
    {| from_date := lit "31AUG2019"; to_date := Some (lit "31JUL2019");
       lines := lit "17,6"; country := lit "SGP" |}
  = inl {| from_date := lit "31AUG2019"; to_date := Some (lit "31JUL2019");
           lines := lit "17,6"; country := lit "SGP" |}.
Proof.
  apply (validation_is_idempotent
           {| from_date := lit "31aug2019"; to_date := Some (lit "31Jul2019");
              lines := lit " 17, ,6 "; country := lit " sgp " |}).
  vm_compute. reflexivity.
Defined.


End NormalForms.

(** ** What the date validators accept *)

Section AcceptedDates.

Import Datetime.

Ltac all_chars c := destruct c as [[] [] [] [] [] [] [] []].

Lemma two_chars_shape (p1 p2 : ascii -> bool) (s d r : str) :
  two_chars p1 p2 s = Some (d, r) -> s = d ++ r /\ List.length d = 2%nat.
Proof.
  unfold two_chars. destruct s as [|a [|b t]]; try discriminate.
  destruct (p1 a && p2 b); [|discriminate].
  intros H. inversion H; subst. split; reflexivity.
Qed.

Lemma one_char_shape (p : ascii -> bool) (s d r : str) :
  one_char p s = Some (d, r) -> s = d ++ r /\ List.length d = 1%nat.
Proof.
  unfold one_char. destruct s as [|a t]; try discriminate.
  destruct (p a); [|discriminate].
  intros H. inversion H; subst. split; reflexivity.
Qed.

(** What the month and year groups consume after the day. *)
Lemma after_d_shape (d s : str) (f : found) :
  after_d d s = Some f ->
  grp_d f = d /\
  s = grp_b f ++ grp_Y f ++ rest f /\
  List.length (grp_b f) = 3%nat /\
  (exists m, month_of (grp_b f) = Some m) /\
  (exists y1 y2 y3 y4,
     grp_Y f = [y1; y2; y3; y4] /\ isdigit y1 = true /\ isdigit y2 = true /\
     isdigit y3 = true /\ isdigit y4 = true).
Proof.
  unfold after_d, b_group, Y_group.
  destruct s as [|a [|b [|c [|y1 [|y2 [|y3 [|y4 r]]]]]]]; try discriminate;
    try (destruct (month_of [a; b; c]); discriminate).
  destruct (month_of [a; b; c]) as [m|] eqn:Em; [|discriminate].
  destruct (isdigit y1 && isdigit y2 && isdigit y3 && isdigit y4) eqn:Ey;
    [|discriminate].
  intros H. inversion H; subst f; clear H. cbn [grp_d grp_b grp_Y rest].
  apply andb_true_iff in Ey. destruct Ey as [Ey H4].
  apply andb_true_iff in Ey. destruct Ey as [Ey H3].
  apply andb_true_iff in Ey. destruct Ey as [H1 H2].
  repeat split; try reflexivity; [now exists m|].
  exists y1, y2, y3, y4. repeat split; assumption.
Qed.

Lemma d_alternatives_shape : Forall day_shape d_alternatives.
Proof.
  unfold d_alternatives.
  repeat (apply Forall_cons;
          [intros s d r H;
           first [apply two_chars_shape in H | apply one_char_shape in H];
           destruct H as [H1 H2]; split; [exact H1 | rewrite H2; tauto]|]).
  apply Forall_nil.
Qed.

(** A match splits the text into the day, the month, the year and the
    rest. *)
Lemma regex_match_shape (alts : list matcher) (s : str) (f : found) :
  Forall day_shape alts ->
  regex_match alts s = Some f ->
  s = grp_d f ++ grp_b f ++ grp_Y f ++ rest f /\
  (List.length (grp_d f) = 1%nat \/ List.length (grp_d f) = 2%nat) /\
  List.length (grp_b f) = 3%nat /\
  (exists m, month_of (grp_b f) = Some m) /\
  (exists y1 y2 y3 y4,
     grp_Y f = [y1; y2; y3; y4] /\ isdigit y1 = true /\ isdigit y2 = true /\
     isdigit y3 = true /\ isdigit y4 = true).
Proof.
  induction 1 as [|alt more Halt _ IH]; simpl; [discriminate|].
  destruct (alt s) as [[d s1]|] eqn:Ea; [|exact IH].
  destruct (after_d d s1) as [f'|] eqn:Ed; [|exact IH].
  intros H. inversion H; subst f'; clear H.
  destruct (Halt _ _ _ Ea) as [Hs Hl].
  destruct (after_d_shape _ _ _ Ed) as [Hd [Hs1 [Hb [Hm Hy]]]].
  rewrite Hd. repeat split; try assumption. now rewrite Hs, Hs1.
Qed.

Lemma month_of_range (b : str) (m : Z) :
  month_of b = Some m -> (1 <= m <= 12)%Z.
Proof.
  unfold month_of, month_abbr.
  cbn [map month_index lit list_ascii_of_string lower].
  repeat match goal with
         | |- context [if ?c then _ else _] =>
             destruct c; [intros H; inversion H; lia|]
         end.
  discriminate.
Qed.

Lemma make_date_bounds (y m d : Z) (dt : datetime) :
  make_date y m d = Ret dt ->
  dt = {| year := y; month := m; day := d |} /\
  (1 <= y <= 9999)%Z /\ (1 <= d <= days_in_month y m)%Z.
Proof.
  unfold make_date.
  destruct ((1 <=? y) && (y <=? 9999))%Z eqn:Ey; simpl; [|discriminate].
  destruct ((1 <=? d) && (d <=? days_in_month y m))%Z eqn:Ed; simpl;
    [|discriminate].
  intros H. inversion H.
  apply andb_true_iff in Ey. apply andb_true_iff in Ed.
  split; [reflexivity|]. lia.
Qed.

(** What a successful [strptime] has found. *)
Lemma strptime_inv (u : str) (dt : datetime) :
  strptime u = Ret dt ->
  exists f,
    regex_match d_alternatives u = Some f /\ rest f = [] /\
    calendar_date dt.
Proof.
  unfold strptime.
  destruct (regex_match d_alternatives u) as [f|] eqn:E; [|discriminate].
  destruct (rest f) as [|c r] eqn:Er; simpl truthy; cbv iota; [|discriminate].
  destruct (int (grp_d f)) as [d|e]; simpl; [|discriminate].
  destruct (int (grp_Y f)) as [y|e]; simpl; [|discriminate].
  destruct (month_of (grp_b f)) as [m|] eqn:Em; [|discriminate].
  intros H. apply make_date_bounds in H. destruct H as [-> [Hy Hd]].
  exists f. split; [reflexivity|]. split; [exact Er|].
  unfold calendar_date. simpl. apply month_of_range in Em. tauto.
Qed.



Lemma digit_is_not_blank (c : ascii) : isdigit c = true -> isspace c = false.
Proof. all_chars c; intros H; try discriminate H; reflexivity. Qed.

(** X4: the dates are not stripped, unlike [country] and the tokens of
    [lines]: a from_date that ends with a blank is rejected, and so is a
    to_date. *)
Theorem date_with_trailing_blank_is_rejected (v : str) (c : ascii) :
  isspace c = true ->
  validate_from_date (v ++ [c]) = Raise (ValueError from_date_message) /\
  validate_to_date (Some (v ++ [c])) = Raise (ValueError to_date_message).
Proof.
  intros Hc.
  assert (Hs : forall d, strptime (upper (v ++ [c])) <> Ret d).
  { intros d Hd. destruct (strptime_inv _ _ Hd) as [f [Hf [Hr _]]].
    destruct (regex_match_shape _ _ _ d_alternatives_shape Hf)
      as [Hu [_ [_ [_ [y1 [y2 [y3 [y4 [HY [_ [_ [_ H4]]]]]]]]]]]].
    rewrite Hr, HY, app_nil_r in Hu.
    unfold upper in Hu. rewrite map_app in Hu. simpl map in Hu.
    change [y1; y2; y3; y4] with ([y1; y2; y3] ++ [y4]) in Hu.
    rewrite !app_assoc in Hu. apply app_inj_tail in Hu. destruct Hu as [_ Hu].
    apply digit_is_not_blank in H4. rewrite <- Hu, isspace_upper_char in H4.
    congruence. }
  split.
  - unfold validate_from_date.
    destruct (strptime (upper (v ++ [c]))) as [d|e] eqn:E; [|reflexivity].
    exfalso. exact (Hs d eq_refl).
  - destruct (v ++ [c]) as [|a r] eqn:Ev; [now destruct v|].
    unfold validate_to_date.
    destruct (strptime (upper (a :: r))) as [d|e] eqn:E; [|reflexivity].
    exfalso. exact (Hs d eq_refl).
Qed.

(** X4 on a date followed by a space. *)
Lemma date_with_trailing_blank_is_rejected_witness :
  validate_from_date (lit "31AUG2019 ") = Raise (ValueError from_date_message).
Proof.
  apply (date_with_trailing_blank_is_rejected (lit "31AUG2019") " "%char).
  reflexivity.
Defined.

End AcceptedDates.

(** ** Printed dates parse back *)

Section PrintedDates.

Import Datetime.

Lemma in_int_range (lo len z : Z) :
  (lo <= z < lo + len)%Z ->
  In z (map (fun k => lo + Z.of_nat k)%Z (seq 0 (Z.to_nat len))).
Proof.
  intros H. apply in_map_iff. exists (Z.to_nat (z - lo)).
  split; [lia|]. apply in_seq. lia.
Qed.

(** A day from 1 to 31 is printed as two digits that the day group
    matches and that read back as the day (checked on the 31 days). *)
Lemma day_print_checked :
  forallb (fun dd =>
    match zero_pad2 (decimal dd) with
    | [d1; d2] =>
        day_digits d1 d2 && isdigit d1 && isdigit d2 &&
        match PyInt.parse [d1; d2] with
        | Some n => (n =? dd)%Z
        | None => false
        end
    | _ => false
    end) (map (fun k => 1 + Z.of_nat k)%Z (seq 0 (Z.to_nat 31))) = true.
Proof. vm_compute. reflexivity. Qed.

(** A year from 1000 to 9999 is printed as four digits that read back as
    the year (checked on the 9000 years). *)
Lemma year_print_checked :
  forallb (fun yy =>
    match decimal yy with
    | [y1; y2; y3; y4] =>
        isdigit y1 && isdigit y2 && isdigit y3 && isdigit y4 &&
        match PyInt.parse [y1; y2; y3; y4] with
        | Some n => (n =? yy)%Z
        | None => false
        end
    | _ => false
    end) (map (fun k => 1000 + Z.of_nat k)%Z (seq 0 (Z.to_nat 9000))) = true.
Proof. vm_compute. reflexivity. Qed.

(** The name of each month, in upper case, is found as that month. *)
Lemma month_print_checked :
  forallb (fun mm =>
    match nth (Z.to_nat (mm - 1)) month_abbr [] with
    | [a; b; c] =>
        match month_of (upper [a; b; c]) with
        | Some m => (m =? mm)%Z
        | None => false
        end
    | _ => false
    end) (map (fun k => 1 + Z.of_nat k)%Z (seq 0 (Z.to_nat 12))) = true.
Proof. vm_compute. reflexivity. Qed.

(** [strptime] on a text of nine characters whose groups are known. *)
Lemma strptime_of_text (d1 d2 m1 m2 m3 y1 y2 y3 y4 : ascii) (dd mm yy : Z) :
  day_digits d1 d2 = true ->
  PyInt.parse [d1; d2] = Some dd ->
  month_of [m1; m2; m3] = Some mm ->
  isdigit y1 = true -> isdigit y2 = true -> isdigit y3 = true ->
  isdigit y4 = true ->
  PyInt.parse [y1; y2; y3; y4] = Some yy ->
  strptime [d1; d2; m1; m2; m3; y1; y2; y3; y4] = make_date yy mm dd.
Proof.
  intros Hd Pd Hm H1 H2 H3 H4 Py.
  assert (Ha : after_d [d1; d2] [m1; m2; m3; y1; y2; y3; y4] =
               Some {| grp_d := [d1; d2]; grp_b := [m1; m2; m3];
                       grp_Y := [y1; y2; y3; y4]; rest := [] |}).
  { unfold after_d, b_group, Y_group. rewrite Hm, H1, H2, H3, H4. reflexivity. }
  assert (Hr : regex_match d_alternatives [d1; d2; m1; m2; m3; y1; y2; y3; y4] =
               Some {| grp_d := [d1; d2]; grp_b := [m1; m2; m3];
                       grp_Y := [y1; y2; y3; y4]; rest := [] |}).
  { unfold day_digits in Hd.
    unfold d_alternatives, regex_match, two_chars, one_char. cbn beta iota.
    destruct (is_char "3"%char d1 && digit_between 0 1 d2);
      [rewrite Ha; reflexivity|].
    destruct (digit_between 1 2 d1 && isdigit d2);
      [rewrite Ha; reflexivity|].
    destruct (is_char "0"%char d1 && digit_between 1 9 d2);
      [rewrite Ha; reflexivity | discriminate Hd]. }
  unfold strptime. rewrite Hr. cbn [rest truthy grp_d grp_Y grp_b].
  unfold int. rewrite Pd, Py. cbn [obind]. rewrite Hm. reflexivity.
Qed.

(** X5: a date of the calendar from the year 1000 on, printed by the
    handler as REPORT_DATE or PREV_DATE, is accepted again by the
    validators (which put it in upper case) and parses back to the same
    date. *)
Theorem printed_date_parses_back (d : datetime) :
  calendar_date d ->
  (1000 <= year d)%Z ->
  strptime (upper (strftime d)) = Ret d /\
  validate_from_date (strftime d) = Ret (upper (strftime d)) /\
  validate_to_date (Some (strftime d)) = Ret (Some (upper (strftime d))).
Proof.
  intros [Hy [Hm Hd]] Hk. destruct d as [y m dd]. simpl in Hy, Hm, Hd, Hk.
  assert (Hdim : (days_in_month y m <= 31)%Z).
  { unfold days_in_month.
    repeat match goal with |- context [if ?c then _ else _] => destruct c end;
      lia. }
  pose proof (proj1 (forallb_forall _ _) day_print_checked dd
                (in_int_range 1 31 dd ltac:(lia))) as Cd. cbv beta in Cd.
  pose proof (proj1 (forallb_forall _ _) year_print_checked y
                (in_int_range 1000 9000 y ltac:(lia))) as Cy. cbv beta in Cy.
  pose proof (proj1 (forallb_forall _ _) month_print_checked m
                (in_int_range 1 12 m ltac:(lia))) as Cm. cbv beta in Cm.
  destruct (zero_pad2 (decimal dd)) as [|d1 [|d2 [|x r]]] eqn:Ed;
    try discriminate.
  destruct (decimal y) as [|y1 [|y2 [|y3 [|y4 [|x r]]]]] eqn:Ey;
    try discriminate.
  destruct (nth (Z.to_nat (m - 1)) month_abbr []) as [|a [|b [|c [|x r]]]] eqn:En;
    try discriminate.
  destruct (month_of (upper [a; b; c])) as [m'|] eqn:Eo; [|discriminate].
  apply Z.eqb_eq in Cm. subst m'.
  apply andb_true_iff in Cd. destruct Cd as [Cd Pd].
  apply andb_true_iff in Cd. destruct Cd as [Cd D2].
  apply andb_true_iff in Cd. destruct Cd as [Dd D1].
  destruct (PyInt.parse [d1; d2]) as [n|] eqn:Ep; [|discriminate].
  apply Z.eqb_eq in Pd. subst n.
  apply andb_true_iff in Cy. destruct Cy as [Cy Py].
  apply andb_true_iff in Cy. destruct Cy as [Cy Y4].
  apply andb_true_iff in Cy. destruct Cy as [Cy Y3].
  apply andb_true_iff in Cy. destruct Cy as [Y1 Y2].
  destruct (PyInt.parse [y1; y2; y3; y4]) as [n|] eqn:Eq; [|discriminate].
  apply Z.eqb_eq in Py. subst n.
  assert (Hu : upper (strftime {| year := y; month := m; day := dd |}) =
               [d1; d2; upper_char a; upper_char b; upper_char c; y1; y2; y3; y4]).
  { unfold strftime. cbn [year month day]. rewrite Ed, Ey, En.
    unfold upper. simpl.
    rewrite (upper_char_digit d1 D1), (upper_char_digit d2 D2),
      (upper_char_digit y1 Y1), (upper_char_digit y2 Y2),
      (upper_char_digit y3 Y3), (upper_char_digit y4 Y4).
    reflexivity. }
  assert (Hs : strptime (upper (strftime {| year := y; month := m; day := dd |}))
               = Ret {| year := y; month := m; day := dd |}).
  { rewrite Hu.
    rewrite (strptime_of_text d1 d2 _ _ _ y1 y2 y3 y4 dd m y Dd Ep Eo Y1 Y2 Y3 Y4 Eq).
    unfold make_date.
    replace ((1 <=? y) && (y <=? 9999))%Z with true
      by (symmetry; apply andb_true_iff; split; apply Z.leb_le; lia).
    replace ((1 <=? dd) && (dd <=? days_in_month y m))%Z with true
      by (symmetry; apply andb_true_iff; split; apply Z.leb_le; lia).
    reflexivity. }
  split; [exact Hs|]. split.
  - unfold validate_from_date. rewrite Hs. reflexivity.
  - destruct (strftime {| year := y; month := m; day := dd |}) as [|h t] eqn:Ef;
      [discriminate Hu|].
    unfold validate_to_date. rewrite Hs. reflexivity.
Qed.

(** X5 on the last day of August 2019. *)
Lemma printed_date_parses_back_witness :
  strptime (lit "31AUG2019") = Ret {| year := 2019; month := 8; day := 31 |} /\
  validate_from_date (lit "31Aug2019") = Ret (lit "31AUG2019") /\
  validate_to_date (Some (lit "31Aug2019")) = Ret (Some (lit "31AUG2019")).
Proof.
  apply (printed_date_parses_back {| year := 2019; month := 8; day := 31 |}).
  - cbv [calendar_date year month day].
    repeat split; apply Z.leb_le; reflexivity.
  - apply Z.leb_le. reflexivity.
Defined.

End PrintedDates.

(** ** More about the rows *)

Section MoreRows.

Lemma rows_from_length (c : str) (rd : Datetime.datetime)
    (pd : option Datetime.datetime) (lns : list Z) (k : nat) :
  List.length (rows_from c rd pd k lns) = List.length lns.
Proof.
  rewrite <- (rows_from_lines c rd pd lns k) at 2. now rewrite length_map.
Qed.

Lemma rows_from_app (c : str) (rd : Datetime.datetime)
    (pd : option Datetime.datetime) (l1 l2 : list Z) (k : nat) :
  rows_from c rd pd k (l1 ++ l2) =
  rows_from c rd pd k l1
  ++ rows_from c rd pd (k + stride pd * List.length l1) l2.
Proof.
  revert k. induction l1 as [|ln r IH]; intros k; simpl.
  - now rewrite Nat.mul_0_r, Nat.add_0_r.
  - rewrite IH. do 3 f_equal. lia.
Qed.

(** The numbers of the rows depend on the line numbers and on whether
    there is a previous date, not on the dates nor on the country. *)
Lemma rows_from_numbers (c1 c2 : str) (rd1 rd2 : Datetime.datetime)
    (pd1 pd2 : option Datetime.datetime) (lns : list Z) (k : nat) :
  (pd1 = None <-> pd2 = None) ->
  map VALUE (rows_from c1 rd1 pd1 k lns) = map VALUE (rows_from c2 rd2 pd2 k lns) /\
  map PREV_VALUE (rows_from c1 rd1 pd1 k lns)
    = map PREV_VALUE (rows_from c2 rd2 pd2 k lns) /\
  map DELTA (rows_from c1 rd1 pd1 k lns) = map DELTA (rows_from c2 rd2 pd2 k lns).
Proof.
  intros H. assert (Hs : stride pd1 = stride pd2).
  { destruct pd1, pd2; try reflexivity;
      [pose proof (proj2 H eq_refl) | pose proof (proj1 H eq_refl)];
      discriminate. }
  revert k. induction lns as [|ln r IH]; intros k; simpl;
    [repeat split; reflexivity|].
  rewrite Hs. destruct (IH (k + stride pd2)%nat) as [-> [-> ->]].
  destruct pd1, pd2; try (repeat split; reflexivity);
    [pose proof (proj2 H eq_refl) | pose proof (proj1 H eq_refl)];
    discriminate.
Qed.

Lemma divisible_or_not (lns : list Z) :
  Forall divisible lns \/ Exists (fun ln => ~ divisible ln) lns.
Proof.
  induction lns as [|ln r [IH|IH]].
  - left. constructor.
  - unfold divisible at 1.
    destruct (is_ret (PyFloat.truediv ln 100)) eqn:E.
    + left. constructor; assumption.
    + right. apply Exists_cons_hd. unfold divisible. congruence.
  - right. now apply Exists_cons_tl.
Qed.

Lemma stride_draws_per_row (payload : RunRequest)
    (pd : option Datetime.datetime) :
  match to_date payload with
  | Some t => exists d, Datetime.strptime t = Ret d /\ pd = Some d
  | None => pd = None
  end ->
  stride pd = draws_per_row payload /\ (pd = None <-> to_date payload = None).
Proof.
  unfold draws_per_row. destruct (to_date payload) as [t|].
  - intros [d [_ ->]]. split; [reflexivity|]. split; discriminate.
  - intros ->. split; [reflexivity | tauto].
Qed.



(** X7: the handler leaves the generator of the [random] module, which the
    whole process shares, in a state that depends only on the number of
    rows and on the presence of a previous date: the state reached from
    seed 42 by one draw per row, or two with a previous date, whatever the
    state was before the request. *)
Theorem generator_after_request (body payload : RunRequest) (g : MT.state)
    (lns : list Z) :
  RunRequest_validate body = inl payload ->
  parse_line_numbers (lines payload) = Ret lns ->
  Forall divisible lns ->
  snd (post_run body g) =
  after_draws (draws_per_row payload * List.length lns) (MT.seed 42).
Proof.
  intros Hv Hl Hd.
  destruct (valid_payload_dates _ _ Hv) as [rd [pd [Hrd Hpd]]].
  assert (Hs : stride pd = draws_per_row payload).
  { apply stride_draws_per_row.
    destruct (to_date payload); [destruct Hpd as [_ Hpd]|]; exact Hpd. }
  unfold post_run. rewrite Hv.
  rewrite (run_job_rows payload g rd pd lns Hrd Hpd Hl Hd), Hs. reflexivity.
Qed.

(** X7 on the request for lines 6 and 17 with a previous date: four draws. *)
Lemma generator_after_request_witness :
  snd (post_run example_request_with_previous some_generator) =
  after_draws 4 (MT.seed 42).
Proof.
  apply (generator_after_request example_request_with_previous
           example_request_with_previous some_generator [6; 17]%Z).
  - vm_compute. reflexivity.
  - vm_compute. reflexivity.
  - repeat constructor.
Defined.

(** X8: the numbers of the rows do not depend on the dates nor on the
    country.  Two valid requests with the same line numbers, both with or
    both without a previous date, get the same VALUE, PREV_VALUE and DELTA,
    row by row. *)
Theorem numbers_ignore_dates_and_country (b1 b2 p1 p2 : RunRequest)
    (g1 g2 : MT.state) (lns : list Z) :
  RunRequest_validate b1 = inl p1 ->
  RunRequest_validate b2 = inl p2 ->
  parse_line_numbers (lines p1) = Ret lns ->
  parse_line_numbers (lines p2) = Ret lns ->
  Forall divisible lns ->
  (to_date p1 = None <-> to_date p2 = None) ->
  exists rows1 rows2,
    fst (run_job p1 g1) = Ret rows1 /\
    fst (run_job p2 g2) = Ret rows2 /\
    map VALUE rows1 = map VALUE rows2 /\
    map PREV_VALUE rows1 = map PREV_VALUE rows2 /\
    map DELTA rows1 = map DELTA rows2.
Proof.
  intros Hv1 Hv2 Hl1 Hl2 Hd Ht.
  destruct (post_run_rows b1 p1 g1 lns Hv1 Hl1 Hd) as [rd1 [pd1 [_ [Hp1 [Hj1 _]]]]].
  destruct (post_run_rows b2 p2 g2 lns Hv2 Hl2 Hd) as [rd2 [pd2 [_ [Hp2 [Hj2 _]]]]].
  do 2 eexists. split; [exact Hj1|]. split; [exact Hj2|].
  apply rows_from_numbers.
  destruct (stride_draws_per_row p1 pd1 Hp1) as [_ H1].
  destruct (stride_draws_per_row p2 pd2 Hp2) as [_ H2].
  tauto.
Qed.

(** X8 on two requests for lines 6 and 17 with other dates and country. *)
Lemma numbers_ignore_dates_and_country_witness :
  exists rows1 rows2,
    fst (run_job example_request some_generator) = Ret rows1 /\
    fst (run_job {| from_date := lit "01JAN2001"; to_date := None;
                    lines := lit "6,17"; country := lit "FRA" |}
                 (MT.seed 7)) = Ret rows2 /\
    map VALUE rows1 = map VALUE rows2 /\
    map PREV_VALUE rows1 = map PREV_VALUE rows2 /\
    map DELTA rows1 = map DELTA rows2.
Proof.
  apply (numbers_ignore_dates_and_country
           example_request
           {| from_date := lit "01jan2001"; to_date := Some [];
              lines := lit " 6 , 17"; country := lit "fra" |}
           example_request
           {| from_date := lit "01JAN2001"; to_date := None;
              lines := lit "6,17"; country := lit "FRA" |}
           some_generator (MT.seed 7) [6; 17]%Z).
  - vm_compute. reflexivity.
  - vm_compute. reflexivity.
  - vm_compute. reflexivity.
  - vm_compute. reflexivity.
  - repeat constructor.
  - simpl. tauto.
Defined.

Lemma firstn_length_app {A} (a b : list A) (n : nat) :
  n = List.length a -> firstn n (a ++ b) = a.
Proof.
  intros ->. induction a as [|x a IH]; simpl; [reflexivity | now rewrite IH].
Qed.

(** X9: lines added at the end of a request do not change the rows before
    them.  For two valid requests with the same dates and country, the
    second with more line numbers after those of the first, the rows of the
    first are the first rows of the second. *)
Theorem earlier_rows_are_kept (b1 b2 p1 p2 : RunRequest) (g1 g2 : MT.state)
    (l1 l2 : list Z) :
  RunRequest_validate b1 = inl p1 ->
  RunRequest_validate b2 = inl p2 ->
  from_date p1 = from_date p2 ->
  to_date p1 = to_date p2 ->
  country p1 = country p2 ->
  parse_line_numbers (lines p1) = Ret l1 ->
  parse_line_numbers (lines p2) = Ret (l1 ++ l2) ->
  Forall divisible (l1 ++ l2) ->
  exists rows1 rows2,
    fst (run_job p1 g1) = Ret rows1 /\
    fst (run_job p2 g2) = Ret rows2 /\
    rows1 = firstn (List.length l1) rows2.
Proof.
  intros Hv1 Hv2 Hf Ht Hc Hl1 Hl2 Hd.
  assert (Hd1 : Forall divisible l1) by (apply Forall_app in Hd; tauto).
  destruct (post_run_rows b1 p1 g1 l1 Hv1 Hl1 Hd1)
    as [rd1 [pd1 [Hr1 [Hp1 [Hj1 _]]]]].
  destruct (post_run_rows b2 p2 g2 _ Hv2 Hl2 Hd)
    as [rd2 [pd2 [Hr2 [Hp2 [Hj2 _]]]]].
  do 2 eexists. split; [exact Hj1|]. split; [exact Hj2|].
  assert (Erd : rd1 = rd2) by congruence.
  assert (Epd : pd1 = pd2).
  { rewrite <- Ht in Hp2. destruct (to_date p1) as [t|].
    - destruct Hp1 as [d1 [H1 ->]]. destruct Hp2 as [d2 [H2 ->]]. congruence.
    - congruence. }
  subst rd2 pd2. rewrite <- Hc, rows_from_app.
  symmetry. apply firstn_length_app. symmetry. apply rows_from_length.
Qed.

(** X9 on the requests for line 6 and for lines 6 and 17. *)
Lemma earlier_rows_are_kept_witness :
  exists rows1 rows2,
    fst (run_job {| from_date := lit "31AUG2019"; to_date := None;
                    lines := lit "6"; country := lit "SG" |}
                 some_generator) = Ret rows1 /\
    fst (run_job example_request some_generator) = Ret rows2 /\
    rows1 = firstn 1 rows2.
Proof.
  apply (earlier_rows_are_kept
           {| from_date := lit "31AUG2019"; to_date := None;
              lines := lit "6"; country := lit "SG" |}
           example_request
           {| from_date := lit "31AUG2019"; to_date := None;
              lines := lit "6"; country := lit "SG" |}
           example_request some_generator some_generator [6]%Z [17]%Z);
    try (vm_compute; reflexivity).
  repeat constructor.
Defined.

Lemma row_at_delta (c : str) (rd d : Datetime.datetime) (k : nat) (ln : Z) :
  exists p,
    PREV_VALUE (row_at c rd (Some d) k ln) = Number p /\
    (DELTA (row_at c rd (Some d) k ln) = Text [] <-> PyFloat.truthy p = false) /\
    (PyFloat.truthy p = true ->
     DELTA (row_at c rd (Some d) k ln)
     = Number (PyFloat.round (VALUE (row_at c rd (Some d) k ln) - p)%float 2)).
Proof.
  unfold row_at. cbn [PREV_VALUE DELTA VALUE].
  eexists. split; [reflexivity|].
  destruct (PyFloat.truthy _); split;
    try (split; intros H; first [reflexivity | discriminate H]);
    intros H; first [reflexivity | discriminate H].
Qed.

(** X10: with a previous date every row has a number as PREV_VALUE, and
    DELTA is the empty string exactly when that number is zero (0.0 or
    -0.0); otherwise DELTA is round(VALUE - PREV_VALUE, 2). *)
Theorem delta_is_empty_for_zero_previous (body payload : RunRequest)
    (g : MT.state) (lns : list Z) (t : str) :
  RunRequest_validate body = inl payload ->
  parse_line_numbers (lines payload) = Ret lns ->
  Forall divisible lns ->
  to_date payload = Some t ->
  exists rows,
    fst (run_job payload g) = Ret rows /\
    Forall (fun r =>
      exists p,
        PREV_VALUE r = Number p /\
        (DELTA r = Text [] <-> PyFloat.truthy p = false) /\
        (PyFloat.truthy p = true ->
         DELTA r = Number (PyFloat.round (VALUE r - p)%float 2))) rows.
Proof.
  intros Hv Hl Hd Ht.
  destruct (post_run_rows body payload g lns Hv Hl Hd)
    as [rd [pd [_ [Hp [Hj _]]]]].
  rewrite Ht in Hp. destruct Hp as [d [_ ->]].
  eexists. split; [exact Hj|].
  apply Forall_forall. intros r Hr. apply rows_from_In in Hr.
  destruct Hr as [j [ln ->]]. apply row_at_delta.
Qed.

(** X10 on the request for line -100 with a previous date. *)
Lemma delta_is_empty_for_zero_previous_witness :
  exists rows,
    fst (run_job zero_value_request some_generator) = Ret rows /\
    Forall (fun r =>
      exists p,
        PREV_VALUE r = Number p /\
        (DELTA r = Text [] <-> PyFloat.truthy p = false) /\
        (PyFloat.truthy p = true ->
         DELTA r = Number (PyFloat.round (VALUE r - p)%float 2))) rows.
Proof.
  apply (delta_is_empty_for_zero_previous zero_value_request
           zero_value_request some_generator [-100]%Z (lit "31JUL2019"));
    try (vm_compute; reflexivity).
  repeat constructor.
Defined.

Lemma rows_from_country (c : str) (rd : Datetime.datetime)
    (pd : option Datetime.datetime) (lns : list Z) (k : nat) :
  Forall (fun r => COUNTRY r = c) (rows_from c rd pd k lns).
Proof.
  revert k. induction lns as [|ln r IH]; intros k; simpl; constructor;
    [reflexivity | apply IH].
Qed.



End MoreRows.

(** ** The characters of a validated [lines] value *)

Section PlainLines.

Ltac all_chars c := destruct c as [[] [] [] [] [] [] [] []].

Lemma c_isspace_isspace (c : ascii) : c_isspace c = true -> isspace c = true.
Proof. all_chars c; intros H; try discriminate H; reflexivity. Qed.

Lemma lines_char_not_blank (c : ascii) : lines_char c = true -> isspace c = false.
Proof. all_chars c; intros H; try discriminate H; reflexivity. Qed.

Lemma digit_value_isdigit (c : ascii) (d : Z) :
  digit_value c = Some d -> isdigit c = true.
Proof. unfold digit_value. destruct (isdigit c); [reflexivity | discriminate]. Qed.

Lemma skip_c_spaces_nil (s : str) :
  PyInt.skip_c_spaces s = [] -> Forall (fun c => c_isspace c = true) s.
Proof.
  induction s as [|c r IH]; simpl; [constructor|].
  destruct (c_isspace c) eqn:E; [|discriminate].
  intros H. constructor; [exact E | exact (IH H)].
Qed.

Lemma skip_c_spaces_In (s : str) (c : ascii) :
  In c (PyInt.skip_c_spaces s) -> In c s.
Proof.
  induction s as [|a r IH]; simpl; [tauto|].
  destruct (c_isspace a); simpl; tauto.
Qed.

(** The digits that [scan_digits] reads are digits and underscores. *)
Lemma scan_digits_split (s : str) (b : bool) (acc n : Z) (r : str) :
  PyInt.scan_digits b acc s = Some (n, r) ->
  exists pre, s = pre ++ r /\ Forall (fun c => literal_char c = true) pre.
Proof.
  revert b acc. induction s as [|c t IH]; intros b acc; simpl.
  - destruct b; [discriminate|]. intros H. inversion H. exists []. split; constructor.
  - destruct (digit_value c) as [d|] eqn:Ed.
    + intros H. destruct (IH _ _ H) as [pre [-> Hp]].
      exists (c :: pre). split; [reflexivity|]. constructor; [|exact Hp].
      unfold literal_char. now rewrite (digit_value_isdigit _ _ Ed).
    + destruct (Ascii.eqb c "_"%char) eqn:Eu.
      * destruct b; [discriminate|]. intros H.
        destruct (IH _ _ H) as [pre [-> Hp]].
        exists (c :: pre). split; [reflexivity|]. constructor; [|exact Hp].
        unfold literal_char. rewrite Eu. now rewrite !orb_true_r.
      * destruct b; [discriminate|]. intros H. inversion H.
        exists []. split; constructor.
Qed.

(** A stripped string starts and ends with a character that is no blank. *)
Lemma stripped_ends (p : str) :
  strip p = p ->
  match p with [] => True | c :: _ => isspace c = false end /\
  match rev p with [] => True | c :: _ => isspace c = false end.
Proof.
  intros Hs. split.
  - rewrite <- Hs. unfold strip. apply rstrip_keeps_head, lstrip_head.
  - assert (Hr : rstrip p = p).
    { rewrite <- Hs at 1. unfold strip. rewrite rstrip_idem. exact Hs. }
    unfold rstrip in Hr. apply (f_equal (@rev ascii)) in Hr.
    rewrite rev_involutive in Hr. rewrite <- Hr. apply lstrip_head.
Qed.

Lemma last_of_app (P : ascii -> Prop) (a r : str) :
  Forall P r -> r <> [] ->
  match rev (a ++ r) with [] => False | h :: _ => P h end.
Proof.
  intros Hr Hne. rewrite rev_app_distr.
  destruct (rev r) as [|h t] eqn:E.
  - apply (f_equal (@rev ascii)) in E. rewrite rev_involutive in E.
    simpl in E. contradiction.
  - simpl. rewrite Forall_forall in Hr. apply Hr, in_rev. rewrite E. now left.
Qed.

(** A stripped string that [int] accepts is made of digits, underscores and
    at most a sign. *)
Lemma parse_literal_chars (p : str) (n : Z) :
  strip p = p -> PyInt.parse p = Some n ->
  Forall (fun c => literal_char c = true) p.
Proof.
  intros Hs Hp. destruct (stripped_ends p Hs) as [Hh Hl].
  destruct p as [|c0 t]; [constructor|].
  assert (Hc0 : c_isspace c0 = false).
  { destruct (c_isspace c0) eqn:E; [|reflexivity].
    apply c_isspace_isspace in E. congruence. }
  unfold PyInt.parse in Hp. simpl PyInt.skip_c_spaces in Hp. rewrite Hc0 in Hp.
  assert (Hgen : forall pre0 s2,
             c0 :: t = pre0 ++ s2 ->
             Forall (fun c => literal_char c = true) pre0 ->
             (exists sign,
                match s2 with
                | c :: _ =>
                    if isdigit c then
                      match PyInt.scan_digits false 0 s2 with
                      | Some (m, rest) =>
                          match PyInt.skip_c_spaces rest with
                          | [] => Some (sign * m)%Z
                          | _ :: _ => None
                          end
                      | None => None
                      end
                    else None
                | [] => None
                end = Some n) ->
             Forall (fun c => literal_char c = true) (c0 :: t)).
  { intros pre0 s2 Hsplit Hpre [sign Hm].
    destruct s2 as [|c s2']; [discriminate|].
    destruct (isdigit c); [|discriminate].
    destruct (PyInt.scan_digits false 0 (c :: s2')) as [[m rest]|] eqn:Es;
      [|discriminate].
    destruct (PyInt.skip_c_spaces rest) as [|x xs] eqn:Er; [|discriminate].
    apply skip_c_spaces_nil in Er.
    destruct (scan_digits_split _ _ _ _ _ Es) as [pre [Hpre' Hlit]].
    destruct rest as [|x xs].
    - rewrite Hsplit, Hpre', app_nil_r. apply Forall_app. split; assumption.
    - exfalso.
      pose proof (last_of_app (fun c => c_isspace c = true) (pre0 ++ pre)
                    (x :: xs) Er ltac:(discriminate)) as Hlast.
      rewrite <- app_assoc, <- Hpre', <- Hsplit in Hlast.
      destruct (rev (c0 :: t)) as [|h tl]; [exact Hlast|].
      apply c_isspace_isspace in Hlast. congruence. }
  destruct (Ascii.eqb c0 "+"%char) eqn:Eplus.
  - apply (Hgen [c0] t eq_refl).
    + constructor; [|constructor]. unfold literal_char.
      rewrite Eplus. now rewrite !orb_true_r.
    + exists 1%Z. exact Hp.
  - destruct (Ascii.eqb c0 "-"%char) eqn:Eminus.
    + apply (Hgen [c0] t eq_refl).
      * constructor; [|constructor]. unfold literal_char.
        rewrite Eminus. now rewrite !orb_true_r.
      * exists (-1)%Z. exact Hp.
    + apply (Hgen [] (c0 :: t) eq_refl); [constructor|].
      exists 1%Z. exact Hp.
Qed.

Lemma join_chars (parts : list str) :
  Forall (Forall (fun c => literal_char c = true)) parts ->
  Forall (fun c => lines_char c = true) (join (lit ",") parts).
Proof.
  assert (Hl : forall p, Forall (fun c => literal_char c = true) p ->
                         Forall (fun c => lines_char c = true) p).
  { intros p. apply Forall_impl. intros c H. unfold lines_char. now rewrite H. }
  induction 1 as [|p ps Hp Hps IH]; [constructor|].
  destruct ps as [|q qs]; [exact (Hl _ Hp)|].
  change (join (lit ",") (p :: q :: qs))
    with (p ++ ","%char :: join (lit ",") (q :: qs)).
  apply Forall_app. split; [exact (Hl _ Hp)|].
  constructor; [reflexivity | exact IH].
Qed.



(** A string without a digit is no integer literal. *)
Lemma parse_needs_digit (s : str) :
  (forall c, In c s -> isdigit c = false) -> PyInt.parse s = None.
Proof.
  intros H. unfold PyInt.parse.
  assert (H1 : forall c, In c (PyInt.skip_c_spaces s) -> isdigit c = false).
  { intros c Hc. apply H. now apply skip_c_spaces_In. }
  destruct (PyInt.skip_c_spaces s) as [|c r]; [reflexivity|].
  destruct (Ascii.eqb c "+"%char);
    [|destruct (Ascii.eqb c "-"%char)].
  - destruct r as [|c' r']; [reflexivity|].
    now rewrite (H1 c') by (simpl; tauto).
  - destruct r as [|c' r']; [reflexivity|].
    now rewrite (H1 c') by (simpl; tauto).
  - now rewrite (H1 c) by (simpl; tauto).
Qed.



End PlainLines.

(** ** Invariants of the diagnostic response *)

Section DiagnosticInvariants.

Ltac run_diagnostic :=
  unfold test_database, test_database_body, bind, try_catch, lift,
    set_database, set_database_url, set_database_name,
    set_connection_status, set_collections, modify, get_state, read_name;
  cbn -[firstn lit slice_to is_ImportError app].

(** X14: in the response of the diagnostic, the initial text of [database]
    never survives, collections are listed only together with the text
    "Connected & Working" and the status "Connected", and the status is
    "Connected" exactly when [db] is there and reading its name did not
    raise. *)
Theorem diagnostic_invariants (imported : import_db) (env : Environ)
    (r : Diagnostic) :
  test_database imported env = Ret r ->
  database r <> database initial_response /\
  (collections r <> [] ->
   database r = lit "✅ Connected & Working" /\
   connection_status r = lit "Connected") /\
  (connection_status r = lit "Connected" <->
   exists db, imported = Ret (Some db) /\
              forall e, name db <> AttributeRaises e).
Proof.
  destruct imported as [[db|]|e].
  - destruct db as [nm ls]. destruct nm as [|v|e].
    + destruct ls as [names|e]; run_diagnostic; intros H; inversion H; subst r;
        cbn -[firstn lit slice_to app];
        (split; [discriminate|]); (split; [intros Hc; first [now split | now elim Hc]|]);
        (split; [intros _; eexists; split; [reflexivity | discriminate] | reflexivity]).
    + destruct ls as [names|e]; run_diagnostic; intros H; inversion H; subst r;
        cbn -[firstn lit slice_to app];
        (split; [discriminate|]); (split; [intros Hc; first [now split | now elim Hc]|]);
        (split; [intros _; eexists; split; [reflexivity | discriminate] | reflexivity]).
    + run_diagnostic. destruct (is_ImportError e); intros H; inversion H; subst r;
        cbn -[firstn lit slice_to app];
        (split; [discriminate|]); (split; [intros Hc; now elim Hc|]);
        (split; [discriminate|]);
        intros [db [Hdb Hn]]; inversion Hdb; subst db; elim (Hn e); reflexivity.
  - run_diagnostic. intros H; inversion H; subst r.
    cbn -[firstn lit slice_to app].
    split; [discriminate|]. split; [intros Hc; now elim Hc|].
    split; [discriminate|]. intros [db [Hdb _]]. discriminate.
  - run_diagnostic. destruct (is_ImportError e); intros H; inversion H; subst r;
      cbn -[firstn lit slice_to app];
      (split; [discriminate|]); (split; [intros Hc; now elim Hc|]);
      (split; [discriminate|]); intros [db [Hdb _]]; discriminate.
Qed.

(** X14 when the module is there and [db] lists two collections. *)
Lemma diagnostic_invariants_witness :
  lit "✅ Connected & Working" <> database initial_response.
Proof.
  apply (diagnostic_invariants
           (Ret (Some {| name := Attribute (lit "reports");
                         list_collection_names := Ret [lit "runs"; lit "rows"] |}))
           {| DATABASE_URL := None; DATABASE_NAME := None |}
           {| backend := lit "✅ Running";
              database := lit "✅ Connected & Working";
              database_url := Some (lit "❌ Not Set");
              database_name := Some (lit "❌ Not Set");
              connection_status := lit "Connected";
              collections := [lit "runs"; lit "rows"] |}).
  reflexivity.
Defined.

End DiagnosticInvariants.
